(** * HNAP1 client for the D-Link DIR-882: handshake, request signing and
    SOAP codec of [hnap1-client.js], embedded and verified.

    The class [HNAP1Client] is embedded function by function.  The mutable
    object [this] becomes a record threaded through a state-and-exception
    monad; the collaborators the class calls but does not define (the
    millisecond clock, the HTTP transport, the XML parser) are the fields
    of a [runtime] record. *)

From Stdlib Require Import ZArith Ascii List Lia Sorted.
From Stdlib Require String DecimalString DecimalZ DecimalPos.
From stdpp Require Import gmap strings.
Import ListNotations.

Open Scope Z_scope.

(** ** Strings *)

Module Str.

(** Characters that a JavaScript template literal contains but a string
    literal here cannot. *)
Definition dquote : string := String (ascii_of_nat 34) "".
Definition newline : string := String (ascii_of_nat 10) "".

(** [Number.prototype.toString] on an integer below 1e21: the decimal
    digits, with a minus sign for a negative value. *)
Definition of_Z (z : Z) : string := DecimalString.NilZero.string_of_int (Z.to_int z).

Definition of_nat (n : nat) : string := of_Z (Z.of_nat n).

Definition upper_char (c : ascii) : ascii :=
  let n := nat_of_ascii c in
  if ((97 <=? n) && (n <=? 122))%nat then ascii_of_nat (n - 32) else c.

(** [String.prototype.toUpperCase] on the ASCII range; the client applies
    it to hexadecimal digests only. *)
Fixpoint toUpperCase (s : string) : string :=
  match s with
  | EmptyString => EmptyString
  | String c s' => String (upper_char c) (toUpperCase s')
  end.

Definition is_space (c : ascii) : bool :=
  let n := nat_of_ascii c in
  ((n =? 32) || ((9 <=? n) && (n <=? 13)))%nat.

(** [/^\s*$/] *)
Fixpoint blank (s : string) : bool :=
  match s with
  | EmptyString => true
  | String c s' => is_space c && blank s'
  end.

Fixpoint concat_all (l : list string) : string :=
  match l with
  | [] => EmptyString
  | s :: l' => s +:+ concat_all l'
  end.

End Str.

(** ** The keyed hash of [./md5]

    [hnap1-client.js] takes [hex_hmac_md5] from the module [./md5], which
    is not among the sources.  The spec describes it as the standard
    keyed-hash construction over a digest with 16-byte outputs and gives
    the reference vector of HMAC-MD5; the digest is MD5, as the name of
    the function says. *)

Module Md5.

Definition w32 : Z := 4294967296.

Definition add32 (a b : Z) : Z := (a + b) mod w32.

Definition rotl32 (x : Z) (c : Z) : Z :=
  Z.lor (Z.shiftl x c mod w32) (Z.shiftr x (32 - c)).

Definition not32 (x : Z) : Z := w32 - 1 - x.

(** floor(2^32 * |sin(i+1)|), i = 0..63 *)
Definition sines : list Z :=
  [ 3614090360; 3905402710; 606105819; 3250441966;
    4118548399; 1200080426; 2821735955; 4249261313;
    1770035416; 2336552879; 4294925233; 2304563134;
    1804603682; 4254626195; 2792965006; 1236535329;
    4129170786; 3225465664; 643717713; 3921069994;
    3593408605; 38016083; 3634488961; 3889429448;
    568446438; 3275163606; 4107603335; 1163531501;
    2850285829; 4243563512; 1735328473; 2368359562;
    4294588738; 2272392833; 1839030562; 4259657740;
    2763975236; 1272893353; 4139469664; 3200236656;
    681279174; 3936430074; 3572445317; 76029189;
    3654602809; 3873151461; 530742520; 3299628645;
    4096336452; 1126891415; 2878612391; 4237533241;
    1700485571; 2399980690; 4293915773; 2240044497;
    1873313359; 4264355552; 2734768916; 1309151649;
    4149444226; 3174756917; 718787259; 3951481745 ].

Definition shifts : list Z :=
  [ 7; 12; 17; 22; 7; 12; 17; 22; 7; 12; 17; 22; 7; 12; 17; 22;
    5; 9; 14; 20; 5; 9; 14; 20; 5; 9; 14; 20; 5; 9; 14; 20;
    4; 11; 16; 23; 4; 11; 16; 23; 4; 11; 16; 23; 4; 11; 16; 23;
    6; 10; 15; 21; 6; 10; 15; 21; 6; 10; 15; 21; 6; 10; 15; 21 ].

Record regs := Regs { ra : Z; rb : Z; rc : Z; rd : Z }.

Definition init : regs := Regs 1732584193 4023233417 2562383102 271733878.

(** One of the 64 steps of the compression function on the 16-word
    block [m]. *)
Definition step (m : list Z) (r : regs) (i : nat) : regs :=
  let '(Regs a b c d) := r in
  let round := (i / 16)%nat in
  let f :=
    match round with
    | 0%nat => Z.lor (Z.land b c) (Z.land (not32 b) d)
    | 1%nat => Z.lor (Z.land d b) (Z.land (not32 d) c)
    | 2%nat => Z.lxor b (Z.lxor c d)
    | _ => Z.lxor c (Z.lor b (not32 d))
    end in
  let g :=
    match round with
    | 0%nat => i
    | 1%nat => ((5 * i + 1) mod 16)%nat
    | 2%nat => ((3 * i + 5) mod 16)%nat
    | _ => ((7 * i) mod 16)%nat
    end in
  let x := add32 (add32 f a) (add32 (nth i sines 0) (nth g m 0)) in
  Regs d (add32 b (rotl32 x (nth i shifts 0))) b c.

Definition compress (r : regs) (m : list Z) : regs :=
  let '(Regs a b c d) := fold_left (step m) (seq 0 64) r in
  Regs (add32 (ra r) a) (add32 (rb r) b) (add32 (rc r) c) (add32 (rd r) d).

(** Little-endian words of a byte list, four bytes to a word. *)
Fixpoint words (bytes : list Z) (fuel : nat) : list Z :=
  match fuel, bytes with
  | S fuel', b0 :: b1 :: b2 :: b3 :: rest =>
      (b0 + 256 * b1 + 65536 * b2 + 16777216 * b3) :: words rest fuel'
  | _, _ => []
  end.

Fixpoint blocks (ws : list Z) (fuel : nat) : list (list Z) :=
  match fuel, ws with
  | S fuel', _ :: _ => firstn 16 ws :: blocks (skipn 16 ws) fuel'
  | _, _ => []
  end.

Definition le_bytes (n : nat) (x : Z) : list Z :=
  map (fun i => Z.shiftr x (8 * Z.of_nat i) mod 256) (seq 0 n).

(** The message, the byte 0x80, zeros up to 56 modulo 64, and the length
    in bits on eight bytes. *)
Definition pad (msg : list Z) : list Z :=
  let len := length msg in
  let zeros := ((55 + 64 - len mod 64) mod 64)%nat in
  msg ++ [128] ++ repeat 0 zeros ++ le_bytes 8 (8 * Z.of_nat len).

(** Modelled from the spec: the digest function with 16-byte outputs
    that the HmacPrimitive of [./md5] is built on, MD5. *)
Definition digest (msg : list Z) : list Z :=
  let p := pad msg in
  let ws := words p (length p) in
  let '(Regs a b c d) := fold_left compress (blocks ws (length ws)) init in
  le_bytes 4 a ++ le_bytes 4 b ++ le_bytes 4 c ++ le_bytes 4 d.

Definition block_size : nat := 64.

(** Modelled from the spec: the keyed-hash construction of the
    HmacPrimitive of [./md5].  A key longer than a block is replaced by
    its digest, the key is padded with zeros to the block size, and the
    result is H((K xor opad) || H((K xor ipad) || message)). *)
Definition hmac (key message : list Z) : list Z :=
  let k := if (block_size <? length key)%nat then digest key else key in
  let k := k ++ repeat 0 (block_size - length k) in
  let ipad := map (Z.lxor 54) k in
  let opad := map (Z.lxor 92) k in
  digest (opad ++ digest (ipad ++ message)).

Definition bytes_of (s : string) : list Z :=
  map (fun c => Z.of_nat (nat_of_ascii c)) (String.list_ascii_of_string s).

Definition hex_digit (n : Z) : ascii :=
  ascii_of_nat (Z.to_nat (if n <? 10 then 48 + n else 87 + n)).

Fixpoint hex (bytes : list Z) : string :=
  match bytes with
  | [] => EmptyString
  | b :: rest => String (hex_digit (b / 16)) (String (hex_digit (b mod 16)) (hex rest))
  end.

Definition hex_md5 (s : string) : string := hex (digest (bytes_of s)).

End Md5.

(** Modelled from the spec: the function [hex_hmac_md5] that
    [hnap1-client.js] requires from [./md5], a file that is not among the
    sources.  The spec's HmacPrimitive has the contract
    [hmac(key, message) -> 32-character lowercase hex string], the
    standard keyed-hash construction over a digest with 16-byte outputs,
    and fixes it by a reference vector (key Jefe); the first argument is
    the key and the second the message. *)
Definition hex_hmac_md5 (key data : string) : string :=
  Md5.hex (Md5.hmac (Md5.bytes_of key) (Md5.bytes_of data)).

(** ** JavaScript values and exceptions *)

#[local] Set Warnings "-register-all".

(** The values that reach the client: the fields of [this] start as
    [null], and the parser hands back strings, objects (own properties in
    the order [Object.keys] lists them), arrays and, for a document with
    no content, [null]. *)
Inductive jsval : Type :=
| JUndefined
| JNull
| JStr (s : string)
| JObj (props : list (string * jsval))
| JArr (items : list jsval).

(** The client raises [new Error(msg)] only; the kinds of failure differ by
    their message.  A [TypeError] is what the engine raises on a property
    read of [null] or [undefined]. *)
Inductive exn : Type :=
| Error (msg : string)
| TypeError (msg : string).

Definition message (e : exn) : string :=
  match e with Error m | TypeError m => m end.

Inductive outcome (A : Type) : Type :=
| Return (a : A)
| Throw (e : exn).
Arguments Return {A} a.
Arguments Throw {A} e.

Definition obind {A B} (o : outcome A) (k : A -> outcome B) : outcome B :=
  match o with
  | Return a => k a
  | Throw e => Throw e
  end.

(** [try { o } catch (error) { h(error) }] *)
Definition ocatch {A} (o : outcome A) (h : exn -> outcome A) : outcome A :=
  match o with
  | Return a => Return a
  | Throw e => h e
  end.

Notation "'let?' x ':=' o 'in' k" := (obind o (fun x => k))
  (at level 10, x name, o at level 100, k at level 200).

(** [if (v)], [!v] *)
Definition truthy (v : jsval) : bool :=
  match v with
  | JUndefined | JNull => false
  | JStr s => negb (String.eqb s "")
  | JObj _ | JArr _ => true
  end.

(** [v === s] for a string [s] *)
Definition strict_eq_string (v : jsval) (s : string) : bool :=
  match v with
  | JStr s' => String.eqb s' s
  | _ => false
  end.

(** ToString, as a template literal and [+] with a string operand apply
    it. *)
Fixpoint js_to_string (v : jsval) : string :=
  match v with
  | JUndefined => "undefined"
  | JNull => "null"
  | JStr s => s
  | JObj _ => "[object Object]"
  | JArr items =>
      (fix join (l : list jsval) : string :=
         match l with
         | [] => ""
         | x :: l' =>
             let e := match x with
                      | JUndefined | JNull => ""
                      | _ => js_to_string x
                      end in
             match l' with
             | [] => e
             | _ :: _ => e +:+ "," +:+ join l'
             end
         end) items
  end.

Fixpoint chars_from (i : nat) (s : string) : list (string * jsval) :=
  match s with
  | EmptyString => []
  | String c s' => (Str.of_nat i, JStr (String c "")) :: chars_from (S i) s'
  end.

Fixpoint items_from (i : nat) (l : list jsval) : list (string * jsval) :=
  match l with
  | [] => []
  | v :: l' => (Str.of_nat i, v) :: items_from (S i) l'
  end.

(** The own enumerable properties, in the order of [Object.keys]: the
    properties of an object, the indices of an array or of a string.
    ([length] and inherited properties are not among them; the client
    reads six fixed names and the first own key, none of which is
    inherited.) *)
Definition own_props (v : jsval) : list (string * jsval) :=
  match v with
  | JObj props => props
  | JArr items => items_from 0 items
  | JStr s => chars_from 0 s
  | JUndefined | JNull => []
  end.

Definition Object_keys (v : jsval) : list string := map fst (own_props v).

Fixpoint lookup_prop (k : string) (props : list (string * jsval)) : jsval :=
  match props with
  | [] => JUndefined
  | (k', v) :: rest => if String.eqb k k' then v else lookup_prop k rest
  end.

(** [v.k] and [v[k]]: a [TypeError] on [null] and [undefined] (message as
    V8 words it), [undefined] for a property that is not there. *)
Definition get (v : jsval) (k : string) : outcome jsval :=
  match v with
  | JUndefined =>
      Throw (TypeError ("Cannot read properties of undefined (reading '" +:+ k +:+ "')"))
  | JNull =>
      Throw (TypeError ("Cannot read properties of null (reading '" +:+ k +:+ "')"))
  | _ => Return (lookup_prop k (own_props v))
  end.

(** ** The object [this], the outside world and the collaborators *)

Record client : Type := Client {
  routerIP : string;
  username : string;
  password : string;
  baseUrl : string;
  privateKey : jsval;
  cookie : jsval;
  publicKey : jsval;
  challenge : jsval;
  compareTimeStamp : Z
}.

(** What [axios.post(url, body, { headers })] is given. *)
Record request : Type := Request {
  req_url : string;
  req_body : string;
  req_headers : gmap string string
}.

(** The part of the world the client changes: how often it has read the
    clock, and the requests it has posted, oldest first. *)
Record world : Type := World {
  clock_reads : nat;
  sent : list request
}.

(** The collaborators.  [Date_now n] is what the [n]-th call of
    [Date.now()] returns; [axios_post earlier req] is [response.data] for
    [req] after the requests [earlier], or the exception axios raises;
    [parseStringPromise] is the xml2js parser with the options
    [parseXmlResponse] sets; [md5_other k d] is what
    [hex_hmac_md5(k, d).toUpperCase()] does when [k] or [d] is not a
    string, which the contract of the primitive leaves open. *)
Record runtime : Type := Runtime {
  Date_now : nat -> Z;
  axios_post : list request -> request -> outcome string;
  parseStringPromise : string -> outcome jsval;
  md5_other : jsval -> jsval -> outcome string
}.

Definition state : Type := client * world.

(** A method of the class: it reads and writes [this] and the world, and
    returns or throws.  What it wrote before a throw stays written. *)
Definition M (A : Type) : Type := state -> outcome A * state.

Definition ret {A} (a : A) : M A := fun s => (Return a, s).

Definition throw {A} (e : exn) : M A := fun s => (Throw e, s).

Definition lift {A} (o : outcome A) : M A := fun s => (o, s).

Definition bind {A B} (m : M A) (k : A -> M B) : M B :=
  fun s =>
    match m s with
    | (Return a, s') => k a s'
    | (Throw e, s') => (Throw e, s')
    end.

Definition try_catch {A} (m : M A) (h : exn -> M A) : M A :=
  fun s =>
    match m s with
    | (Return a, s') => (Return a, s')
    | (Throw e, s') => h e s'
    end.

Definition this : M client := fun s => (Return (fst s), s).

Definition update (f : client -> client) : M unit :=
  fun s => (Return tt, (f (fst s), snd s)).

Notation "'let!' x ':=' m 'in' k" := (bind m (fun x => k))
  (at level 10, x name, m at level 100, k at level 200).
Notation "m ';;' k" := (bind m (fun _ => k))
  (at level 100, k at level 200, right associativity).

Definition set_privateKey (v : jsval) (c : client) : client :=
  Client (routerIP c) (username c) (password c) (baseUrl c)
         v (cookie c) (publicKey c) (challenge c) (compareTimeStamp c).

Definition set_cookie (v : jsval) (c : client) : client :=
  Client (routerIP c) (username c) (password c) (baseUrl c)
         (privateKey c) v (publicKey c) (challenge c) (compareTimeStamp c).

Definition set_publicKey (v : jsval) (c : client) : client :=
  Client (routerIP c) (username c) (password c) (baseUrl c)
         (privateKey c) (cookie c) v (challenge c) (compareTimeStamp c).

Definition set_challenge (v : jsval) (c : client) : client :=
  Client (routerIP c) (username c) (password c) (baseUrl c)
         (privateKey c) (cookie c) (publicKey c) v (compareTimeStamp c).

Definition set_compareTimeStamp (t : Z) (c : client) : client :=
  Client (routerIP c) (username c) (password c) (baseUrl c)
         (privateKey c) (cookie c) (publicKey c) (challenge c) t.

(** [Date.now()] *)
Definition read_clock (rt : runtime) : M Z :=
  fun s =>
    let w := snd s in
    (Return (Date_now rt (clock_reads w)),
     (fst s, World (S (clock_reads w)) (sent w))).

(** [await axios.post(url, body, { headers })], then [response.data] *)
Definition post (rt : runtime) (req : request) : M string :=
  fun s =>
    let w := snd s in
    (axios_post rt (sent w) req, (fst s, World (clock_reads w) (sent w ++ [req]))).

(** [hex_hmac_md5(k, d).toUpperCase()] *)
Definition hmac_upper (rt : runtime) (k d : jsval) : outcome string :=
  match k, d with
  | JStr key, JStr data => Return (Str.toUpperCase (hex_hmac_md5 key data))
  | _, _ => md5_other rt k d
  end.

(** ** The class [HNAP1Client] *)

Section HNAP1Client.

Variable rt : runtime.

(** [constructor(routerIP, username, password)] *)
Definition new_client (routerIP username password : string) : client :=
  Client routerIP username password ("http://" +:+ routerIP +:+ "/HNAP1/")
         JNull JNull JNull JNull 0.

(** [hex_hmac_md5(this.publicKey + this.password, this.challenge).toUpperCase()] *)
Definition generatePrivateKey : M string :=
  let! c := this in
  lift (hmac_upper rt (JStr (js_to_string (publicKey c) +:+ password c)) (challenge c)).

(** [hex_hmac_md5(this.privateKey, this.challenge).toUpperCase()] *)
Definition generateLoginPassword : M string :=
  let! c := this in
  lift (hmac_upper rt (privateKey c) (challenge c)).

(** [Math.floor(Date.now() % 2000000000000)]: the remainder has the
    sign of the reading, and is an integer already. *)
Definition getUniqueTimestamp : M string :=
  let! now := read_clock rt in
  let! c := this in
  let timestamp := Z.rem now 2000000000000 in
  let timestamp :=
    if compareTimeStamp c =? timestamp then timestamp + 1 else timestamp in
  update (set_compareTimeStamp timestamp) ;;
  ret (Str.of_Z timestamp).

(** The timestamp is a string here, so [timestamp + soapAction] is a
    concatenation. *)
Definition generateHnapAuth (soapAction : string) : M string :=
  let! timestamp := getUniqueTimestamp in
  let! c := this in
  let! auth := lift (hmac_upper rt (privateKey c) (JStr (timestamp +:+ soapAction))) in
  ret (auth +:+ " " +:+ timestamp).

(** The headers are built before the [try]: an exception of
    [generateHnapAuth] is not caught, one of [axios.post] is thrown again
    with the client's message in front. *)
Definition makeHNAPRequest (action body : string) : M string :=
  let soapAction :=
    Str.dquote +:+ "http://purenetworks.com/HNAP1/" +:+ action +:+ Str.dquote in
  let headers : gmap string string :=
    <["SOAPAction" := soapAction]>
      (<["Content-Type" := "text/xml; charset=utf-8"]> ∅) in
  let! c := this in
  let! headers :=
    if truthy (privateKey c)
    then let! auth := generateHnapAuth soapAction in
         ret (<["HNAP_AUTH" := auth]> headers)
    else ret headers in
  let! c := this in
  let headers :=
    if truthy (cookie c)
    then <["Cookie" := "uid=" +:+ js_to_string (cookie c)]> headers
    else headers in
  try_catch
    (post rt (Request (baseUrl c) body headers))
    (fun error => throw (Error ("HNAP request failed: " +:+ message error))).

Definition soap_head (action : string) : string :=
  "<?xml version=" +:+ Str.dquote +:+ "1.0" +:+ Str.dquote
    +:+ " encoding=" +:+ Str.dquote +:+ "utf-8" +:+ Str.dquote +:+ "?>" +:+ Str.newline
  +:+ "      <soap:Envelope xmlns:xsi=" +:+ Str.dquote
    +:+ "http://www.w3.org/2001/XMLSchema-instance" +:+ Str.dquote +:+ " " +:+ Str.newline
  +:+ "                     xmlns:xsd=" +:+ Str.dquote
    +:+ "http://www.w3.org/2001/XMLSchema" +:+ Str.dquote +:+ " " +:+ Str.newline
  +:+ "                     xmlns:soap=" +:+ Str.dquote
    +:+ "http://schemas.xmlsoap.org/soap/envelope/" +:+ Str.dquote +:+ ">" +:+ Str.newline
  +:+ "        <soap:Body>" +:+ Str.newline
  +:+ "          <" +:+ action +:+ " xmlns=" +:+ Str.dquote
    +:+ "http://purenetworks.com/HNAP1/" +:+ Str.dquote +:+ ">".

Definition soap_tail (action : string) : string :=
  "</" +:+ action +:+ ">" +:+ Str.newline
  +:+ "        </soap:Body>" +:+ Str.newline
  +:+ "      </soap:Envelope>".

(** [params] lists the entries of the object in the order
    [Object.entries] yields them. *)
Definition createSOAP (action : string) (params : list (string * string)) : string :=
  let xmlBody := soap_head action in
  let xmlBody :=
    fold_left
      (fun xmlBody '(key, value) =>
         xmlBody +:+ ("<" +:+ key +:+ ">" +:+ value +:+ "</" +:+ key +:+ ">"))
      params xmlBody in
  xmlBody +:+ soap_tail action.

(** It reads and writes no field of [this].  The whole body is inside
    the [try], so the error for a missing Envelope or Body is caught and
    thrown again like any other; [Object.keys(...)[0]] of an object
    without keys is [undefined], which as a property name reads
    undefined. *)
Definition parseXmlResponse (xmlString : string) : outcome jsval :=
  ocatch
    (let? result := parseStringPromise rt xmlString in
     let? envelope := get result "Envelope" in
     let? missing :=
       if truthy envelope
       then let? b := get envelope "Body" in Return (negb (truthy b))
       else Return true in
     if missing : bool
     then Throw (Error "Invalid SOAP response: Envelope or Body not found")
     else
       let? Body := get envelope "Body" in
       let responseKey :=
         match Object_keys Body with
         | k :: _ => k
         | [] => "undefined"
         end in
       get Body responseKey)
    (fun error => Throw (Error ("XML parsing failed: " +:+ message error))).

(** The three fields are assigned first and tested afterwards. *)
Definition requestLoginChallenge : M unit :=
  let action := "Login" in
  let! c := this in
  let body :=
    createSOAP action
      [("Action", "request"); ("Username", username c);
       ("LoginPassword", ""); ("Captcha", "")] in
  let! response := makeHNAPRequest action body in
  let! result := lift (parseXmlResponse response) in
  let! v := lift (get result "Challenge") in
  update (set_challenge v) ;;
  let! v := lift (get result "Cookie") in
  update (set_cookie v) ;;
  let! v := lift (get result "PublicKey") in
  update (set_publicKey v) ;;
  let! c := this in
  if negb (truthy (challenge c)) || negb (truthy (cookie c)) || negb (truthy (publicKey c))
  then throw (Error "Login challenge request failed")
  else ret tt.

(** [this.privateKey = this.generatePrivateKey()] is its first
    statement. *)
Definition performLogin : M unit :=
  let action := "Login" in
  let! key := generatePrivateKey in
  update (set_privateKey (JStr key)) ;;
  let! loginPassword := generateLoginPassword in
  let! c := this in
  let body :=
    createSOAP action
      [("Action", "login"); ("Username", username c);
       ("LoginPassword", loginPassword); ("Captcha", "")] in
  let! response := makeHNAPRequest action body in
  let! result := lift (parseXmlResponse response) in
  let! loginResult := lift (get result "LoginResult") in
  if negb (strict_eq_string loginResult "success")
  then throw (Error "Login failed")
  else ret tt.

Definition login : M unit :=
  requestLoginChallenge ;;
  performLogin.

End HNAP1Client.

(** ** The device operations of [HNAP1Client]

    Each builds the envelope of its action, posts it and parses the
    response.  None looks at the state of the handshake. *)

Section Operations.

Variable rt : runtime.

Definition getDeviceSettings : M jsval :=
  let action := "GetDeviceSettings" in
  let body := createSOAP action [] in
  let! response := makeHNAPRequest rt action body in
  lift (parseXmlResponse rt response).

Definition getWanSettings : M jsval :=
  let action := "GetWanSettings" in
  let body := createSOAP action [] in
  let! response := makeHNAPRequest rt action body in
  lift (parseXmlResponse rt response).

Definition getWirelessSettings (radio : string) : M jsval :=
  let action := "GetWLanRadioSettings" in
  let body := createSOAP action [("RadioID", radio)] in
  let! response := makeHNAPRequest rt action body in
  lift (parseXmlResponse rt response).

Definition getConnectedClients : M jsval :=
  let action := "GetClientInfo" in
  let body := createSOAP action [] in
  let! response := makeHNAPRequest rt action body in
  lift (parseXmlResponse rt response).

Definition reboot : M jsval :=
  let action := "Reboot" in
  let body := createSOAP action [] in
  let! response := makeHNAPRequest rt action body in
  lift (parseXmlResponse rt response).

End Operations.

(** ** The parser collaborator: xml2js

    [parseXmlResponse] builds its parser with [explicitArray: false],
    [ignoreAttrs: true] and the tag-name processor [stripPrefix].  This is
    a model of what that parser returns on the documents the protocol
    exchanges: an optional declaration, elements with attributes, and
    character data.  Comments, CDATA sections, DOCTYPE, entity
    references and anything but blanks after the root element are
    outside the model, which rejects them; it does not check that a tag
    name is a name; and it gives every rejected document the same
    message, where sax reports the position and the kind of the fault. *)

Module Xml2js.

Inductive token : Type :=
| TOpen (name : string) (selfClosing : bool)
| TClose (name : string)
| TText (text : string).

Definition chr (n : nat) : ascii := ascii_of_nat n.
Definition is_chr (n : nat) (c : ascii) : bool := Nat.eqb (nat_of_ascii c) n.

Definition string_of (rev_chars : list ascii) : string :=
  String.string_of_list_ascii (rev rev_chars).

(** Character data between two tags; none when there is no character. *)
Definition text_token (rev_chars : list ascii) : option (list token) :=
  match rev_chars with
  | [] => Some []
  | _ => if existsb (is_chr 38) rev_chars then None
         else Some [TText (string_of rev_chars)]
  end.

Fixpoint name_of (chars : list ascii) : list ascii :=
  match chars with
  | [] => []
  | c :: rest => if Str.is_space c || is_chr 47 c then [] else c :: name_of rest
  end.

Fixpoint drop_trailing_space (rev_chars : list ascii) : list ascii :=
  match rev_chars with
  | c :: rest => if Str.is_space c then drop_trailing_space rest else rev_chars
  | [] => []
  end.

(** What stands between [<] and [>], last character first. *)
Definition tag_token (rev_chars : list ascii) : option (list token) :=
  match rev rev_chars with
  | [] => None
  | c :: rest =>
      if is_chr 63 c then
        match rev_chars with
        | q :: _ => if is_chr 63 q then Some [] else None
        | [] => None
        end
      else if is_chr 33 c then None
      else if is_chr 47 c then
        match drop_trailing_space rev_chars with
        | [] | [_] => None
        | _ => Some [TClose (String.string_of_list_ascii
                               (rev (drop_trailing_space (removelast rev_chars))))]
        end
      else
        match name_of (c :: rest) with
        | [] => None
        | name =>
            Some [TOpen (String.string_of_list_ascii name)
                        (match rev_chars with
                         | l :: _ => is_chr 47 l
                         | [] => false
                         end)]
        end
  end.

Inductive mode : Type :=
| InText (rev_chars : list ascii)
| InTag (rev_chars : list ascii) (quote : option ascii).

Fixpoint lex (s : string) (m : mode) : option (list token) :=
  match s with
  | EmptyString =>
      match m with
      | InText acc => text_token acc
      | InTag _ _ => None
      end
  | String c s' =>
      match m with
      | InText acc =>
          if is_chr 60 c
          then match text_token acc, lex s' (InTag [] None) with
               | Some t, Some ts => Some (t ++ ts)
               | _, _ => None
               end
          else lex s' (InText (c :: acc))
      | InTag acc None =>
          if is_chr 62 c
          then match tag_token acc, lex s' (InText []) with
               | Some t, Some ts => Some (t ++ ts)
               | _, _ => None
               end
          else if is_chr 34 c || is_chr 39 c
          then lex s' (InTag (c :: acc) (Some c))
          else lex s' (InTag (c :: acc) None)
      | InTag acc (Some q) =>
          lex s' (InTag (c :: acc) (if Ascii.eqb c q then None else Some q))
      end
  end.

Fixpoint after_last_colon (s : string) : option string :=
  match s with
  | EmptyString => None
  | String c s' =>
      match after_last_colon s' with
      | Some r => Some r
      | None => if is_chr 58 c then Some s' else None
      end
  end.

(** [xml2js.processors.stripPrefix]: [str.replace(/(?!xmlns)^.*:/, '')] *)
Definition stripPrefix (name : string) : string :=
  if String.prefix "xmlns" name then name
  else match after_last_colon name with
       | Some r => r
       | None => name
       end.

Fixpoint has_key (key : string) (props : list (string * jsval)) : bool :=
  match props with
  | [] => false
  | (k, _) :: rest => String.eqb k key || has_key key rest
  end.

(** With [explicitArray: false] the first child of a name is stored as
    it is and a later one of the same name turns the entry into an
    array. *)
Definition assignOrPush (props : list (string * jsval)) (key : string) (newValue : jsval)
  : list (string * jsval) :=
  if has_key key props
  then map (fun '(k, v) =>
              if String.eqb k key
              then (k, match v with
                       | JArr l => JArr (l ++ [newValue])
                       | _ => JArr [v; newValue]
                       end)
              else (k, v)) props
  else props ++ [(key, newValue)].

(** An element that is still open: its name as written, the children
    stored so far, the character data read so far. *)
Record frame : Type := Frame {
  raw : string;
  children : list (string * jsval);
  chars : string
}.

(** The value of an element at its closing tag: blank character data is
    dropped, an element with nothing else is that blank string (the
    empty string for an empty element); character data alone is the
    string; with children it is the entry [_], the first of the
    object. *)
Definition close_value (f : frame) : jsval :=
  match children f with
  | [] => JStr (chars f)
  | props => if Str.blank (chars f) then JObj props
             else JObj (("_", JStr (chars f)) :: props)
  end.

Inductive progress : Type :=
| Building (stack : list frame)
| Done (result : jsval).

Definition close (name : string) (stack : list frame) : option progress :=
  match stack with
  | [] => None
  | f :: rest =>
      if String.eqb (raw f) name then
        let key := stripPrefix (raw f) in
        let v := close_value f in
        match rest with
        | [] => Some (Done (JObj [(key, v)]))
        | parent :: rest' =>
            Some (Building
                    (Frame (raw parent) (assignOrPush (children parent) key v) (chars parent)
                     :: rest'))
        end
      else None
  end.

Definition feed (p : progress) (t : token) : option progress :=
  match p, t with
  | Building stack, TOpen name selfClosing =>
      if selfClosing then close name (Frame name [] "" :: stack)
      else Some (Building (Frame name [] "" :: stack))
  | Building stack, TClose name => close name stack
  | Building (f :: stack), TText s =>
      Some (Building (Frame (raw f) (children f) (chars f +:+ s) :: stack))
  | Building [], TText s => if Str.blank s then Some p else None
  | Done _, TText s => if Str.blank s then Some p else None
  | Done _, _ => None
  end.

Fixpoint feed_all (p : progress) (ts : list token) : option progress :=
  match ts with
  | [] => Some p
  | t :: ts' =>
      match feed p t with
      | Some p' => feed_all p' ts'
      | None => None
      end
  end.

(** [parser.parseStringPromise(str)]: [null] for a blank text, the
    object with the root element as its one property otherwise. *)
Definition parseStringPromise (str : string) : outcome jsval :=
  if Str.blank str then Return JNull
  else
    match lex str (InText []) with
    | Some ts =>
        match feed_all (Building []) ts with
        | Some (Done result) => Return result
        | _ => Throw (Error "not well-formed")
        end
    | None => Throw (Error "not well-formed")
    end.

End Xml2js.

(** * Verification *)

Arguments hex_hmac_md5 : simpl never.
Arguments createSOAP : simpl never.
Arguments Str.of_Z : simpl never.
Arguments Str.toUpperCase : simpl never.
Arguments js_to_string : simpl nomatch.
Arguments hmac_upper : simpl never.
Arguments getUniqueTimestamp : simpl never.
Arguments generateHnapAuth : simpl never.
Arguments generatePrivateKey : simpl never.
Arguments generateLoginPassword : simpl never.
Arguments makeHNAPRequest : simpl never.
Arguments parseXmlResponse : simpl never.

(** ** The model against known values *)

Example md5_empty : Md5.hex_md5 "" = "d41d8cd98f00b204e9800998ecf8427e".
Proof. vm_compute. reflexivity. Qed.

Example md5_abc : Md5.hex_md5 "abc" = "900150983cd24fb0d6963f7d28e17f72".
Proof. vm_compute. reflexivity. Qed.

(** The reference vector of the spec's HmacPrimitive conformance test. *)
Example hex_hmac_md5_reference_vector :
  hex_hmac_md5 "Jefe" "what do ya want for nothing?" = "750c783e6ab0b503eaa86e310a5db738".
Proof. vm_compute. reflexivity. Qed.

Example hex_hmac_md5_long_key :
  hex_hmac_md5 (Str.concat_all (repeat "k" 70)) "x" = "a1e52bac8f16703c1a72c3e8be957d92".
Proof. vm_compute. reflexivity. Qed.

Example of_Z_examples :
  Str.of_Z 0 = "0" /\ Str.of_Z 1700000000000 = "1700000000000" /\ Str.of_Z (-5) = "-5".
Proof. vm_compute. repeat split. Qed.

Example xml2js_foo :
  Xml2js.parseStringPromise "<foo/>" = Return (JObj [("foo", JStr "")]).
Proof. vm_compute. reflexivity. Qed.

Example xml2js_nested :
  Xml2js.parseStringPromise
    "<s:Envelope xmlns:s='urn:x'><s:Body> <R><a>1</a><b/><a>2</a><c>x<d>y</d></c></R> </s:Body></s:Envelope>"
  = Return (JObj [("Envelope", JObj [("Body", JObj [("R",
       JObj [("a", JArr [JStr "1"; JStr "2"]); ("b", JStr "");
             ("c", JObj [("_", JStr "x"); ("d", JStr "y")])])])])]).
Proof. vm_compute. reflexivity. Qed.

Example xml2js_rejects_mismatch :
  Xml2js.parseStringPromise "<a><b></a></b>" = Throw (Error "not well-formed").
Proof. vm_compute. reflexivity. Qed.

(** ** Strings *)

Lemma string_app_cons (c : ascii) (s t : string) : String c s +:+ t = String c (s +:+ t).
Proof. reflexivity. Qed.

Lemma string_app_nil_r (s : string) : s +:+ "" = s.
Proof. induction s as [|c s IH]; [reflexivity | rewrite string_app_cons, IH; reflexivity]. Qed.

Lemma string_app_assoc (a b c : string) : (a +:+ b) +:+ c = a +:+ (b +:+ c).
Proof.
  induction a as [|x a IH]; [reflexivity | rewrite !string_app_cons, IH; reflexivity].
Qed.

Lemma toUpperCase_length (s : string) :
  String.length (Str.toUpperCase s) = String.length s.
Proof.
  induction s as [|c s IH]; [reflexivity|].
  change (Str.toUpperCase (String c s)) with (String (Str.upper_char c) (Str.toUpperCase s)).
  cbn [String.length]. f_equal. exact IH.
Qed.

(** ** The digest is 32 characters long *)

Lemma le_bytes_length (n : nat) (x : Z) : length (Md5.le_bytes n x) = n.
Proof. unfold Md5.le_bytes. rewrite length_map, length_seq. reflexivity. Qed.

Lemma digest_length (msg : list Z) : length (Md5.digest msg) = 16%nat.
Proof.
  unfold Md5.digest. destruct (fold_left Md5.compress _ Md5.init) as [a b c d].
  rewrite !length_app, !le_bytes_length. reflexivity.
Qed.

Lemma hex_length (bytes : list Z) :
  String.length (Md5.hex bytes) = (2 * length bytes)%nat.
Proof. induction bytes as [|b bytes IH]; cbn [Md5.hex String.length length]; lia. Qed.

Lemma hex_hmac_md5_length (key data : string) :
  String.length (hex_hmac_md5 key data) = 32%nat.
Proof. unfold hex_hmac_md5, Md5.hmac. rewrite hex_length, digest_length. reflexivity. Qed.

(** A digest, uppercased or not, is never the empty string: a private
    key that [generatePrivateKey] has produced is set. *)
Lemma digest_truthy (key data : string) :
  truthy (JStr (Str.toUpperCase (hex_hmac_md5 key data))) = true.
Proof.
  pose proof (toUpperCase_length (hex_hmac_md5 key data)) as Hlen.
  rewrite hex_hmac_md5_length in Hlen.
  destruct (Str.toUpperCase (hex_hmac_md5 key data)); [discriminate | reflexivity].
Qed.

(** Unfolds the monad, leaving the methods' own steps. *)
Ltac run :=
  unfold bind, try_catch, this, update, lift, ret, throw, read_clock, post; cbn.

(** A router that is not there: every request fails, the clock stands
    still, and the keyed hash refuses what is not a string. *)
Definition offline : runtime :=
  Runtime (fun _ => 1700000000000)
          (fun _ _ => Throw (Error "connect EHOSTUNREACH"))
          Xml2js.parseStringPromise
          (fun _ _ => Throw (TypeError "Cannot read properties of null (reading 'length')")).

Definition fresh_world : world := World 0 [].

(** ** Credential derivation *)

(** The derivations as the spec's CredentialDeriver words them:
    [hmac(key = challenge, message = publicKey + password)] and
    [hmac(key = challenge, message = privateKey)], uppercased. *)
Module Spec.

Definition derivePrivateKey (publicKey password challenge : string) : string :=
  Str.toUpperCase (hex_hmac_md5 challenge (publicKey +:+ password)).

Definition deriveLoginProof (privateKey challenge : string) : string :=
  Str.toUpperCase (hex_hmac_md5 challenge privateKey).

End Spec.

(** A client that has received the challenge [ch] and the public key
    [pk], and holds the private key [key]. *)
Definition with_material (pk ch key : string) (c : client) : client :=
  set_privateKey (JStr key) (set_challenge (JStr ch) (set_publicKey (JStr pk) c)).

Definition jefe : client :=
  with_material "Jefe" "what do ya want for nothing?" "Jefe"
                (new_client "192.168.0.1" "Admin" "").

(** C1, as stated, fails: with public key Jefe, empty password and the
    challenge of the reference vector, both methods return the digest
    keyed by the public key (private key), not the one keyed by the
    challenge that the spec's wording gives. *)
Lemma generatePrivateKey_not_keyed_by_challenge :
  fst (generatePrivateKey offline (jefe, fresh_world))
    = Return "750C783E6AB0B503EAA86E310A5DB738"
  /\ Spec.derivePrivateKey "Jefe" "" "what do ya want for nothing?"
    = "813AEAD7C4A34BFF01A16D61368E7C13"
  /\ fst (generateLoginPassword offline (jefe, fresh_world))
    = Return "750C783E6AB0B503EAA86E310A5DB738"
  /\ Spec.deriveLoginProof "Jefe" "what do ya want for nothing?"
    = "813AEAD7C4A34BFF01A16D61368E7C13".
Proof. vm_compute. repeat split. Qed.

(** C1, amended: for all strings, [generatePrivateKey] returns the
    uppercased digest with key = publicKey + password over the message
    challenge, and [generateLoginPassword] the uppercased digest with
    key = privateKey over the message challenge; neither changes the
    client. *)
Theorem generatePrivateKey_generateLoginPassword_hmac :
  forall (rt : runtime) (c : client) (w : world) (pk ch key : string),
    let c' := with_material pk ch key c in
    generatePrivateKey rt (c', w)
      = (Return (Str.toUpperCase (hex_hmac_md5 (pk +:+ password c) ch)), (c', w))
    /\ generateLoginPassword rt (c', w)
      = (Return (Str.toUpperCase (hex_hmac_md5 key ch)), (c', w)).
Proof. intros rt c w pk ch key c'. split; reflexivity. Qed.

(** ** Timestamps *)

(** [n] successive calls of a method, results in call order. *)
Fixpoint successive {A} (m : M A) (n : nat) : M (list A) :=
  match n with
  | O => ret []
  | S n' => let! x := m in let! xs := successive m n' in ret (x :: xs)
  end.

(** What one call does, for any clock reading. *)
Lemma getUniqueTimestamp_step (rt : runtime) (c : client) (w : world) :
  let t := Z.rem (Date_now rt (clock_reads w)) 2000000000000 in
  let t' := if compareTimeStamp c =? t then t + 1 else t in
  getUniqueTimestamp rt (c, w)
    = (Return (Str.of_Z t'), (set_compareTimeStamp t' c, World (S (clock_reads w)) (sent w))).
Proof. reflexivity. Qed.

(** C2: three calls within the millisecond 1700000000000 return
    1700000000000, 1700000000001 and 1700000000000 again: the third
    reading differs from the stored 1700000000001, so it is returned as it
    is.  The sequence is not increasing and a value repeats. *)
Lemma getUniqueTimestamp_repeats_within_a_millisecond :
  fst (successive (getUniqueTimestamp offline) 3
         (new_client "192.168.0.1" "Admin" "", fresh_world))
  = Return ["1700000000000"; "1700000000001"; "1700000000000"].
Proof. vm_compute. reflexivity. Qed.

(** The same for any reading: when the clock gives one value three
    times and the stored timestamp differs from it, the three calls
    return that value, the next one, and that value again. *)
Lemma getUniqueTimestamp_third_call_repeats (rt : runtime) (c : client) (w : world) :
  let n := clock_reads w in
  let t := Z.rem (Date_now rt n) 2000000000000 in
  Date_now rt (S n) = Date_now rt n ->
  Date_now rt (S (S n)) = Date_now rt n ->
  compareTimeStamp c <> t ->
  fst (successive (getUniqueTimestamp rt) 3 (c, w))
  = Return [Str.of_Z t; Str.of_Z (t + 1); Str.of_Z t].
Proof.
  intros n t H1 H2 Hne. unfold successive, bind.
  rewrite getUniqueTimestamp_step. cbn. fold n. fold t.
  destruct (Z.eqb_spec (compareTimeStamp c) t) as [E|_]; [contradiction|].
  rewrite getUniqueTimestamp_step. cbn. fold n. rewrite H1. fold t.
  rewrite Z.eqb_refl.
  rewrite getUniqueTimestamp_step. cbn. fold n. rewrite H2. fold t.
  destruct (Z.eqb_spec (t + 1) t) as [E|_]; [lia|]. reflexivity.
Qed.

(** What does hold on every call: the value stored differs from the one
    stored before, so two consecutive timestamps are never the same. *)
Lemma getUniqueTimestamp_differs_from_last (rt : runtime) (c : client) (w : world) :
  (compareTimeStamp (fst (snd (getUniqueTimestamp rt (c, w)))) =? compareTimeStamp c) = false.
Proof.
  rewrite getUniqueTimestamp_step. cbn.
  destruct (Z.eqb_spec (compareTimeStamp c)
              (Z.rem (Date_now rt (clock_reads w)) 2000000000000)) as [E|E];
    apply Z.eqb_neq; lia.
Qed.

(** And when the clock has moved on since the reading behind the stored
    value, the new value is above the stored one and again within one of
    its reading: with a clock that advances between calls, and stays
    below 2*10^12, the timestamps increase. *)
Lemma getUniqueTimestamp_increases (rt : runtime) (c : client) (w : world) (last : Z) :
  last <= compareTimeStamp c <= last + 1 ->
  last < Z.rem (Date_now rt (clock_reads w)) 2000000000000 ->
  let t := Z.rem (Date_now rt (clock_reads w)) 2000000000000 in
  let t' := compareTimeStamp (fst (snd (getUniqueTimestamp rt (c, w)))) in
  compareTimeStamp c < t' /\ t <= t' <= t + 1.
Proof.
  intros Hlast Hnow t t'. subst t'. rewrite getUniqueTimestamp_step. cbn. fold t.
  destruct (Z.eqb_spec (compareTimeStamp c) t) as [E|E]; lia.
Qed.

(** ** The authentication header *)

(** C6: with a private key set and the clock at a non-negative epoch
    reading, [generateHnapAuth] returns the uppercased digest with
    key = privateKey over timestamp + soapAction, a space, and the
    timestamp, which is the reading modulo 2*10^12, plus one when that
    equals the stored timestamp; it stores the timestamp. *)
Theorem generateHnapAuth_value :
  forall (rt : runtime) (c : client) (w : world) (key soapAction : string),
    privateKey c = JStr key ->
    0 <= Date_now rt (clock_reads w) ->
    let t := Date_now rt (clock_reads w) mod 2000000000000 in
    let timestamp := if compareTimeStamp c =? t then t + 1 else t in
    let signature :=
      Str.toUpperCase (hex_hmac_md5 key (Str.of_Z timestamp +:+ soapAction)) in
    generateHnapAuth rt soapAction (c, w)
      = (Return (signature +:+ " " +:+ Str.of_Z timestamp),
         (set_compareTimeStamp timestamp c, World (S (clock_reads w)) (sent w))).
Proof.
  intros rt c w key soapAction Hkey Hnow t timestamp signature.
  unfold generateHnapAuth. unfold bind at 1. rewrite getUniqueTimestamp_step.
  rewrite Z.rem_mod_nonneg by lia. fold t. fold timestamp.
  run. rewrite Hkey. reflexivity.
Qed.

Lemma generateHnapAuth_value_witness :
  fst (generateHnapAuth offline "GetDeviceSettings" (jefe, fresh_world))
  = Return (Str.toUpperCase (hex_hmac_md5 "Jefe" ("1700000000000" +:+ "GetDeviceSettings"))
            +:+ " " +:+ "1700000000000").
Proof.
  rewrite (generateHnapAuth_value offline jefe fresh_world "Jefe" "GetDeviceSettings");
    [reflexivity | reflexivity | vm_compute; discriminate].
Defined.

(** ** The SOAP codec *)

(** [v.k] on a value that is not [null] or [undefined]. *)
Definition entry (k : string) (v : jsval) : jsval := lookup_prop k (own_props v).

(** The parse tree has no [Envelope], or its [Envelope] has no [Body]. *)
Definition lacks_Envelope_or_Body (root : list (string * jsval)) : Prop :=
  lookup_prop "Envelope" root = JUndefined
  \/ entry "Body" (lookup_prop "Envelope" root) = JUndefined.

Definition malformed_envelope : exn :=
  Error "XML parsing failed: Invalid SOAP response: Envelope or Body not found".

Lemma get_defined (v : jsval) (k : string) :
  truthy v = true -> get v k = Return (entry k v).
Proof. destruct v; cbn; intros H; try discriminate; reflexivity. Qed.

(** [parseXmlResponse] after the parser has returned the root object. *)
Lemma parseXmlResponse_root (rt : runtime) (xml : string) (root : list (string * jsval)) :
  parseStringPromise rt xml = Return (JObj root) ->
  parseXmlResponse rt xml =
    let envelope := lookup_prop "Envelope" root in
    if truthy envelope && truthy (entry "Body" envelope)
    then Return (match own_props (entry "Body" envelope) with
                 | (_, v) :: _ => v
                 | [] => JUndefined
                 end)
    else Throw malformed_envelope.
Proof.
  intros Hparse. unfold parseXmlResponse. rewrite Hparse. cbn.
  destruct (truthy (lookup_prop "Envelope" root)) eqn:He; cbn; [|reflexivity].
  rewrite (get_defined _ _ He). cbn.
  destruct (truthy (entry "Body" (lookup_prop "Envelope" root))) eqn:Hb; cbn; [|reflexivity].
  rewrite (get_defined _ _ Hb).
  generalize (entry "Body" (lookup_prop "Envelope" root)). intros b.
  unfold Object_keys, entry.
  destruct (own_props b) as [|[k v] rest]; cbn.
  - reflexivity.
  - rewrite String.eqb_refl. reflexivity.
Qed.

(** Whatever goes wrong inside [parseXmlResponse] leaves it as an [Error]
    whose message starts with the parsing-failure prefix. *)
Lemma parseXmlResponse_failure_kind (rt : runtime) (xml : string) :
  match parseXmlResponse rt xml with
  | Return _ => True
  | Throw e => exists m, e = Error ("XML parsing failed: " +:+ m)
  end.
Proof.
  unfold parseXmlResponse.
  match goal with |- match ocatch ?o _ with _ => _ end => destruct o as [v|e] end; cbn;
    [exact I | eexists; reflexivity].
Qed.

(** C5: when the tree the parser returns has no [Envelope], or an
    [Envelope] with no [Body], [parseXmlResponse] throws the
    malformed-envelope failure, an [Error] that carries the
    parsing-failure prefix. *)
Theorem parseXmlResponse_malformed_envelope :
  forall (rt : runtime) (xml : string) (root : list (string * jsval)),
    parseStringPromise rt xml = Return (JObj root) ->
    lacks_Envelope_or_Body root ->
    parseXmlResponse rt xml = Throw malformed_envelope.
Proof.
  intros rt xml root Hparse Hlacks.
  rewrite (parseXmlResponse_root rt xml root Hparse). cbn zeta.
  destruct Hlacks as [H|H]; rewrite H; [reflexivity|].
  rewrite andb_false_r. reflexivity.
Qed.

(** The spec's example, through the xml2js model. *)
Lemma parseXmlResponse_malformed_envelope_witness :
  parseXmlResponse offline "<foo/>" = Throw malformed_envelope.
Proof.
  apply (parseXmlResponse_malformed_envelope offline "<foo/>" [("foo", JStr "")]).
  - vm_compute. reflexivity.
  - left. vm_compute. reflexivity.
Defined.




(** The element [createSOAP] writes for one parameter. *)
Definition parameter_element (p : string * string) : string :=
  "<" +:+ fst p +:+ ">" +:+ snd p +:+ "</" +:+ fst p +:+ ">".

Lemma fold_left_elements (params : list (string * string)) (xmlBody : string) :
  fold_left
    (fun xmlBody '(key, value) =>
       xmlBody +:+ ("<" +:+ key +:+ ">" +:+ value +:+ "</" +:+ key +:+ ">"))
    params xmlBody
  = xmlBody +:+ Str.concat_all (map parameter_element params).
Proof.
  revert xmlBody. induction params as [|[k v] params IH]; intros xmlBody; cbn.
  - symmetry. apply string_app_nil_r.
  - rewrite IH, string_app_assoc. reflexivity.
Qed.

(** The envelope is the fixed head, one element per parameter in the
    order given, each value as it is, and the fixed tail. *)
Lemma createSOAP_elements (action : string) (params : list (string * string)) :
  createSOAP action params
  = soap_head action +:+ Str.concat_all (map parameter_element params) +:+ soap_tail action.
Proof.
  unfold createSOAP. rewrite fold_left_elements, string_app_assoc. reflexivity.
Qed.

Definition actions : list string :=
  ["Login"; "GetDeviceSettings"; "GetWanSettings"; "GetWLanRadioSettings";
   "GetClientInfo"; "Reboot"].

(** C7: for each action of the client, parsing the envelope that
    [createSOAP] builds for the parameters A = 1, B = 2 gives back the
    object with A = 1 and B = 2, in that order; and for all parameters the
    envelope holds one element per parameter, in the order given, with
    the value verbatim. *)
Theorem createSOAP_parseXmlResponse_round_trip :
  (forall (clock : nat -> Z) (transport : list request -> request -> outcome string)
          (other : jsval -> jsval -> outcome string),
      Forall
        (fun action =>
           parseXmlResponse (Runtime clock transport Xml2js.parseStringPromise other)
                            (createSOAP action [("A", "1"); ("B", "2")])
           = Return (JObj [("A", JStr "1"); ("B", JStr "2")]))
        actions)
  /\ (forall (action : string) (params : list (string * string)),
        createSOAP action params
        = soap_head action +:+ Str.concat_all (map parameter_element params)
            +:+ soap_tail action).
Proof.
  split.
  - intros clock transport other. unfold parseXmlResponse, parseStringPromise.
    repeat constructor; vm_compute; reflexivity.
  - exact createSOAP_elements.
Qed.

(** ** Outgoing requests *)

Definition soapAction_of (action : string) : string :=
  Str.dquote +:+ "http://purenetworks.com/HNAP1/" +:+ action +:+ Str.dquote.

Definition plain_headers (action : string) : gmap string string :=
  <["SOAPAction" := soapAction_of action]>
    (<["Content-Type" := "text/xml; charset=utf-8"]> ∅).

Definition add_cookie (c : client) (headers : gmap string string) : gmap string string :=
  if truthy (cookie c)
  then <["Cookie" := "uid=" +:+ js_to_string (cookie c)]> headers
  else headers.

(** The end of [makeHNAPRequest]: the request is posted, and a failure of
    the transport is thrown again under the client's own message. *)
Definition posted (rt : runtime) (req : request) (c : client) (w : world)
  : outcome string * state :=
  (match axios_post rt (sent w) req with
   | Return data => Return data
   | Throw error => Throw (Error ("HNAP request failed: " +:+ message error))
   end,
   (c, World (clock_reads w) (sent w ++ [req]))).

Lemma makeHNAPRequest_unsigned (rt : runtime) (action body : string) (c : client) (w : world) :
  truthy (privateKey c) = false ->
  makeHNAPRequest rt action body (c, w)
  = posted rt (Request (baseUrl c) body (add_cookie c (plain_headers action))) c w.
Proof.
  intros Hkey. unfold makeHNAPRequest, posted, add_cookie, plain_headers, soapAction_of.
  run. rewrite Hkey. run.
  destruct (axios_post rt (sent w) _); reflexivity.
Qed.

Lemma makeHNAPRequest_signed (rt : runtime) (action body : string) (c : client) (w : world) :
  truthy (privateKey c) = true ->
  makeHNAPRequest rt action body (c, w)
  = match generateHnapAuth rt (soapAction_of action) (c, w) with
    | (Return auth, (c', w')) =>
        posted rt (Request (baseUrl c') body
                           (add_cookie c' (<["HNAP_AUTH" := auth]> (plain_headers action))))
               c' w'
    | (Throw e, s') => (Throw e, s')
    end.
Proof.
  intros Hkey. unfold makeHNAPRequest, posted, add_cookie, plain_headers, soapAction_of.
  run. rewrite Hkey. run.
  destruct (generateHnapAuth rt _ (c, w)) as [[auth|e] [c' w']]; cbn; [|reflexivity].
  destruct (axios_post rt (sent w') _); reflexivity.
Qed.

(** [generateHnapAuth] with a string for the private key: it cannot
    throw, and changes only the stored timestamp and the count of clock
    readings. *)
Lemma generateHnapAuth_string_key (rt : runtime) (soapAction key : string)
      (c : client) (w : world) :
  privateKey c = JStr key ->
  exists t : Z,
    getUniqueTimestamp rt (c, w)
      = (Return (Str.of_Z t), (set_compareTimeStamp t c, World (S (clock_reads w)) (sent w)))
    /\ generateHnapAuth rt soapAction (c, w)
      = (Return (Str.toUpperCase (hex_hmac_md5 key (Str.of_Z t +:+ soapAction))
                 +:+ " " +:+ Str.of_Z t),
         (set_compareTimeStamp t c, World (S (clock_reads w)) (sent w))).
Proof.
  intros Hkey. eexists. split; [apply getUniqueTimestamp_step|].
  unfold generateHnapAuth. unfold bind at 1. rewrite getUniqueTimestamp_step.
  run. rewrite Hkey. reflexivity.
Qed.

(** Signing leaves the cookie and the requests posted as they were. *)
Lemma generateHnapAuth_frame (rt : runtime) (soapAction : string) (c : client) (w : world) :
  cookie (fst (snd (generateHnapAuth rt soapAction (c, w)))) = cookie c
  /\ sent (snd (snd (generateHnapAuth rt soapAction (c, w)))) = sent w.
Proof.
  unfold generateHnapAuth, bind. rewrite getUniqueTimestamp_step. run.
  destruct (hmac_upper rt _ _); split; reflexivity.
Qed.

Lemma lookup_add_cookie (c : client) (headers : gmap string string) (name : string) :
  name <> "Cookie" -> add_cookie c headers !! name = headers !! name.
Proof.
  intros Hne. unfold add_cookie. destruct (truthy (cookie c)); [|reflexivity].
  apply lookup_insert_ne. congruence.
Qed.

Lemma lookup_add_cookie_Cookie (c : client) (headers : gmap string string) :
  headers !! "Cookie" = None ->
  add_cookie c headers !! "Cookie"
  = if truthy (cookie c) then Some ("uid=" +:+ js_to_string (cookie c)) else None.
Proof.
  intros Hnone. unfold add_cookie. destruct (truthy (cookie c)); [|exact Hnone].
  apply lookup_insert_eq.
Qed.

Lemma plain_headers_lookup (action : string) :
  plain_headers action !! "SOAPAction" = Some (soapAction_of action)
  /\ plain_headers action !! "HNAP_AUTH" = None
  /\ plain_headers action !! "Cookie" = None.
Proof. unfold plain_headers. repeat split; simplify_map_eq; reflexivity. Qed.

(** C8: in the request that [makeHNAPRequest] posts, the header
    HNAP_AUTH is present exactly when [privateKey] is set (truthy, as
    [if (this.privateKey)] tests it): absent when it is [null], present
    when it is a digest, the two values the class gives it; the header
    Cookie is uid= followed by the cookie when [cookie] is set, and
    absent otherwise. *)
Theorem makeHNAPRequest_headers :
  forall (rt : runtime) (action body : string) (c : client) (w : world) (req : request),
    sent (snd (snd (makeHNAPRequest rt action body (c, w)))) = sent w ++ [req] ->
    (is_Some (req_headers req !! "HNAP_AUTH") <-> truthy (privateKey c) = true)
    /\ (privateKey c = JNull -> req_headers req !! "HNAP_AUTH" = None)
    /\ (forall key data : string,
          privateKey c = JStr (Str.toUpperCase (hex_hmac_md5 key data)) ->
          is_Some (req_headers req !! "HNAP_AUTH"))
    /\ req_headers req !! "Cookie"
       = if truthy (cookie c) then Some ("uid=" +:+ js_to_string (cookie c)) else None.
Proof.
  intros rt action body c w req Hsent.
  cut ((is_Some (req_headers req !! "HNAP_AUTH") <-> truthy (privateKey c) = true)
       /\ (privateKey c = JNull -> req_headers req !! "HNAP_AUTH" = None)
       /\ req_headers req !! "Cookie"
          = if truthy (cookie c) then Some ("uid=" +:+ js_to_string (cookie c)) else None).
  { intros (Hiff & Hnull & Hcookie). repeat split; try tauto.
    intros key data Hkey. apply Hiff. rewrite Hkey. apply digest_truthy. }
  destruct (plain_headers_lookup action) as (_ & Hauth & Hcookie).
  destruct (truthy (privateKey c)) eqn:Hkey.
  - rewrite makeHNAPRequest_signed in Hsent by exact Hkey.
    destruct (generateHnapAuth rt _ (c, w)) as [[auth|e] [c' w']] eqn:Hgen.
    + destruct (generateHnapAuth_frame rt (soapAction_of action) c w) as [Hc Hw].
      rewrite Hgen in Hc, Hw. cbn in Hc, Hw, Hsent.
      rewrite Hw in Hsent. apply app_inv_head in Hsent.
      injection Hsent as <-. cbn.
      split; [split|split].
      * intros _. reflexivity.
      * intros _. rewrite lookup_add_cookie by discriminate.
        rewrite lookup_insert_eq. eauto.
      * intros Hnull. rewrite Hnull in Hkey. discriminate.
      * rewrite lookup_add_cookie_Cookie.
        -- rewrite Hc. reflexivity.
        -- rewrite lookup_insert_ne by discriminate. exact Hcookie.
    + exfalso.
      destruct (generateHnapAuth_frame rt (soapAction_of action) c w) as [_ Hw].
      rewrite Hgen in Hw. cbn in Hw, Hsent.
      rewrite Hw in Hsent. rewrite <- (app_nil_r (sent w)) in Hsent at 1.
      apply app_inv_head in Hsent. discriminate.
  - rewrite makeHNAPRequest_unsigned in Hsent by exact Hkey.
    cbn in Hsent. apply app_inv_head in Hsent. injection Hsent as <-. cbn.
    split; [split|split].
    + intros [v Hv]. rewrite lookup_add_cookie in Hv by discriminate. congruence.
    + discriminate.
    + intros _. rewrite lookup_add_cookie by discriminate. exact Hauth.
    + apply lookup_add_cookie_Cookie. exact Hcookie.
Qed.

(** A client after a handshake: private key and cookie are set. *)
Definition signed_in : client := set_cookie (JStr "5hwbxGMqLd") jefe.

Lemma makeHNAPRequest_headers_witness :
  exists req : request,
    sent (snd (snd (makeHNAPRequest offline "GetDeviceSettings" "" (signed_in, fresh_world))))
      = [req]
    /\ (is_Some (req_headers req !! "HNAP_AUTH") <-> truthy (privateKey signed_in) = true)
    /\ (privateKey signed_in = JNull -> req_headers req !! "HNAP_AUTH" = None)
    /\ (forall key data : string,
          privateKey signed_in = JStr (Str.toUpperCase (hex_hmac_md5 key data)) ->
          is_Some (req_headers req !! "HNAP_AUTH"))
    /\ req_headers req !! "Cookie" = Some "uid=5hwbxGMqLd".
Proof.
  eexists. split.
  - vm_compute. reflexivity.
  - apply (makeHNAPRequest_headers offline "GetDeviceSettings" "" signed_in fresh_world).
    vm_compute. reflexivity.
Defined.

(** C9: the SOAPAction that is sent as a header and the one that is
    signed are the same string, the action URI between two double-quote
    characters: with a private key set, the request carries that string
    as SOAPAction, and as HNAP_AUTH the digest keyed by the private key
    over the timestamp followed by that string, quotes included. *)
Theorem makeHNAPRequest_signs_quoted_soapAction :
  forall (rt : runtime) (action body : string) (c : client) (w : world) (key : string),
    privateKey c = JStr key ->
    key <> "" ->
    exists (timestamp : string) (req : request),
      fst (getUniqueTimestamp rt (c, w)) = Return timestamp
      /\ sent (snd (snd (makeHNAPRequest rt action body (c, w)))) = sent w ++ [req]
      /\ req_headers req !! "SOAPAction"
         = Some (Str.dquote +:+ "http://purenetworks.com/HNAP1/" +:+ action +:+ Str.dquote)
      /\ req_headers req !! "HNAP_AUTH"
         = Some (Str.toUpperCase
                   (hex_hmac_md5 key
                      (timestamp +:+ Str.dquote +:+ "http://purenetworks.com/HNAP1/"
                         +:+ action +:+ Str.dquote))
                 +:+ " " +:+ timestamp).
Proof.
  intros rt action body c w key Hkey Hne.
  assert (truthy (privateKey c) = true) as Htruthy.
  { rewrite Hkey. cbn. apply negb_true_iff, String.eqb_neq, Hne. }
  destruct (generateHnapAuth_string_key rt (soapAction_of action) key c w Hkey)
    as (t & Hts & Hgen).
  rewrite makeHNAPRequest_signed, Hgen, Hts by exact Htruthy.
  eexists. eexists. split; [reflexivity|]. split; [reflexivity|]. cbn.
  rewrite !lookup_add_cookie by discriminate.
  rewrite lookup_insert_eq, lookup_insert_ne by discriminate.
  destruct (plain_headers_lookup action) as (Hsoap & _ & _).
  split; [exact Hsoap | reflexivity].
Qed.

Lemma makeHNAPRequest_signs_quoted_soapAction_witness :
  exists (timestamp : string) (req : request),
    fst (getUniqueTimestamp offline (jefe, fresh_world)) = Return timestamp
    /\ sent (snd (snd (makeHNAPRequest offline "Reboot" "" (jefe, fresh_world))))
       = sent fresh_world ++ [req]
    /\ req_headers req !! "SOAPAction"
       = Some (Str.dquote +:+ "http://purenetworks.com/HNAP1/" +:+ "Reboot" +:+ Str.dquote)
    /\ req_headers req !! "HNAP_AUTH"
       = Some (Str.toUpperCase
                 (hex_hmac_md5 "Jefe"
                    (timestamp +:+ Str.dquote +:+ "http://purenetworks.com/HNAP1/"
                       +:+ "Reboot" +:+ Str.dquote))
               +:+ " " +:+ timestamp).
Proof.
  apply (makeHNAPRequest_signs_quoted_soapAction offline "Reboot" "" jefe fresh_world "Jefe").
  - reflexivity.
  - discriminate.
Defined.

(** ** The handshake *)

Definition challenge_request_body (user : string) : string :=
  createSOAP "Login"
    [("Action", "request"); ("Username", user); ("LoginPassword", ""); ("Captcha", "")].

Definition login_request_body (user loginPassword : string) : string :=
  createSOAP "Login"
    [("Action", "login"); ("Username", user); ("LoginPassword", loginPassword);
     ("Captcha", "")].

(** The three assignments of [requestLoginChallenge]. *)
Definition store_challenge (result : list (string * jsval)) (c : client) : client :=
  set_publicKey (lookup_prop "PublicKey" result)
    (set_cookie (lookup_prop "Cookie" result)
       (set_challenge (lookup_prop "Challenge" result) c)).

(** A router that answers the challenge request without a [Cookie]. *)
Definition no_cookie_router : runtime :=
  Runtime (Date_now offline)
          (fun _ _ =>
             Return ("<soap:Envelope xmlns:soap='http://schemas.xmlsoap.org/soap/envelope/'>"
                     +:+ "<soap:Body><LoginResponse xmlns='http://purenetworks.com/HNAP1/'>"
                     +:+ "<LoginResult>OK</LoginResult>"
                     +:+ "<Challenge>1234567890ABCDEF</Challenge>"
                     +:+ "<PublicKey>FEDCBA0987654321</PublicKey>"
                     +:+ "</LoginResponse></soap:Body></soap:Envelope>"))
          Xml2js.parseStringPromise
          (md5_other offline).

(** C4, as stated, fails: when the response has a [Challenge] and a
    [PublicKey] but no [Cookie], [requestLoginChallenge] throws its
    failure, and the client, whose three fields were [null], now holds
    the challenge, the public key and [undefined] for the cookie. *)
Lemma requestLoginChallenge_stores_partial_result :
  let c := new_client "192.168.0.1" "Admin" "" in
  let r := requestLoginChallenge no_cookie_router (c, fresh_world) in
  fst r = Throw (Error "Login challenge request failed")
  /\ (challenge c, cookie c, publicKey c) = (JNull, JNull, JNull)
  /\ (challenge (fst (snd r)), cookie (fst (snd r)), publicKey (fst (snd r)))
     = (JStr "1234567890ABCDEF", JUndefined, JStr "FEDCBA0987654321").
Proof. vm_compute. repeat split. Qed.

(** C4, amended: once the request has returned and its response has
    parsed to an object, [requestLoginChallenge] first stores whatever
    the object holds under Challenge, Cookie and PublicKey ([undefined]
    for a missing one), and then returns if the three are all non-empty
    and throws its failure otherwise; the fields are written in both
    cases. *)
Theorem requestLoginChallenge_stores_then_checks :
  forall (rt : runtime) (c c1 : client) (w w1 : world) (response : string)
         (result : list (string * jsval)),
    makeHNAPRequest rt "Login" (challenge_request_body (username c)) (c, w)
      = (Return response, (c1, w1)) ->
    parseXmlResponse rt response = Return (JObj result) ->
    requestLoginChallenge rt (c, w)
    = (if truthy (lookup_prop "Challenge" result)
          && truthy (lookup_prop "Cookie" result)
          && truthy (lookup_prop "PublicKey" result)
       then Return tt
       else Throw (Error "Login challenge request failed"),
       (store_challenge result c1, w1)).
Proof.
  intros rt c c1 w w1 response result Hreq Hparse.
  unfold requestLoginChallenge, challenge_request_body in *.
  unfold bind at 1. unfold this at 1. cbn [fst].
  unfold bind at 1. rewrite Hreq.
  unfold bind at 1. unfold lift at 1. rewrite Hparse.
  run. unfold store_challenge.
  destruct (truthy (lookup_prop "Challenge" result)),
           (truthy (lookup_prop "Cookie" result)),
           (truthy (lookup_prop "PublicKey" result)); reflexivity.
Qed.

Lemma requestLoginChallenge_stores_then_checks_witness :
  let c := new_client "192.168.0.1" "Admin" "" in
  let r := requestLoginChallenge no_cookie_router (c, fresh_world) in
  fst r = Throw (Error "Login challenge request failed")
  /\ fst (snd r)
     = store_challenge
         [("LoginResult", JStr "OK"); ("Challenge", JStr "1234567890ABCDEF");
          ("PublicKey", JStr "FEDCBA0987654321")] c.
Proof.
  cbv zeta.
  erewrite requestLoginChallenge_stores_then_checks.
  2: { vm_compute. reflexivity. }
  2: { vm_compute. reflexivity. }
  split; reflexivity.
Defined.

(** [login] is the challenge request and then, if that returned,
    [performLogin]. *)
Lemma login_sequence (rt : runtime) (s : state) :
  login rt s
  = match requestLoginChallenge rt s with
    | (Return _, s') => performLogin rt s'
    | (Throw e, s') => (Throw e, s')
    end.
Proof.
  unfold login, bind. destruct (requestLoginChallenge rt s) as [[u|e] s']; reflexivity.
Qed.

(** When [requestLoginChallenge] returns, the three fields are set. *)
Lemma requestLoginChallenge_returns (rt : runtime) (s s' : state) (u : unit) :
  requestLoginChallenge rt s = (Return u, s') ->
  truthy (challenge (fst s')) = true
  /\ truthy (cookie (fst s')) = true
  /\ truthy (publicKey (fst s')) = true.
Proof.
  unfold requestLoginChallenge. run.
  destruct (makeHNAPRequest rt _ _ s) as [[response|e] [c1 w1]]; [|discriminate].
  destruct (parseXmlResponse rt response) as [result|e]; [|discriminate].
  destruct (get result "Challenge") as [v1|e]; [|discriminate]. cbn.
  destruct (get result "Cookie") as [v2|e]; [|discriminate]. cbn.
  destruct (get result "PublicKey") as [v3|e]; [|discriminate]. cbn.
  destruct (truthy v1) eqn:H1, (truthy v2) eqn:H2, (truthy v3) eqn:H3; cbn;
    intros [= <- <-]; auto.
Qed.

(** With a string for the private key, [makeHNAPRequest] always posts
    its request. *)
Lemma makeHNAPRequest_posts (rt : runtime) (action body key : string)
      (c : client) (w : world) :
  privateKey c = JStr key ->
  exists req : request,
    sent (snd (snd (makeHNAPRequest rt action body (c, w)))) = sent w ++ [req]
    /\ req_url req = baseUrl c
    /\ req_body req = body.
Proof.
  intros Hkey. destruct (truthy (privateKey c)) eqn:Htruthy.
  - destruct (generateHnapAuth_string_key rt (soapAction_of action) key c w Hkey)
      as (t & _ & Hgen).
    rewrite makeHNAPRequest_signed, Hgen by exact Htruthy.
    eexists. repeat split.
  - rewrite makeHNAPRequest_unsigned by exact Htruthy.
    eexists. repeat split.
Qed.

Lemma generatePrivateKey_eq (rt : runtime) (c : client) (w : world) :
  generatePrivateKey rt (c, w)
  = (hmac_upper rt (JStr (js_to_string (publicKey c) +:+ password c)) (challenge c), (c, w)).
Proof. reflexivity. Qed.

Lemma generateLoginPassword_eq (rt : runtime) (c : client) (w : world) :
  generateLoginPassword rt (c, w) = (hmac_upper rt (privateKey c) (challenge c), (c, w)).
Proof. reflexivity. Qed.

(** The end of [performLogin]: the response is parsed and its
    LoginResult compared with success. *)
Definition login_verdict (rt : runtime) (response : string) : outcome unit :=
  let? result := parseXmlResponse rt response in
  let? loginResult := get result "LoginResult" in
  if negb (strict_eq_string loginResult "success")
  then Throw (Error "Login failed")
  else Return tt.

(** [performLogin], step by step: nothing is tested before the key is
    derived, stored, and used for the login password and the request. *)
Lemma performLogin_steps (rt : runtime) (c : client) (w : world) :
  performLogin rt (c, w)
  = match hmac_upper rt (JStr (js_to_string (publicKey c) +:+ password c)) (challenge c) with
    | Throw e => (Throw e, (c, w))
    | Return key =>
        match hmac_upper rt (JStr key) (challenge c) with
        | Throw e => (Throw e, (set_privateKey (JStr key) c, w))
        | Return loginPassword =>
            match makeHNAPRequest rt "Login" (login_request_body (username c) loginPassword)
                                  (set_privateKey (JStr key) c, w) with
            | (Return response, s') => (login_verdict rt response, s')
            | (Throw e, s') => (Throw e, s')
            end
        end
    end.
Proof.
  unfold performLogin, login_request_body, login_verdict. run.
  rewrite generatePrivateKey_eq. cbn.
  destruct (hmac_upper rt (JStr (js_to_string (publicKey c) +:+ password c)) (challenge c))
    as [key|e]; [|reflexivity].
  rewrite generateLoginPassword_eq. cbn.
  destruct (hmac_upper rt (JStr key) (challenge c)) as [loginPassword|e]; [|reflexivity].
  cbn. destruct (makeHNAPRequest rt _ _ _) as [[response|e] s']; [|reflexivity].
  destruct (parseXmlResponse rt response) as [result|e]; [|reflexivity]. cbn.
  destruct (get result "LoginResult") as [v|e]; [|reflexivity]. cbn.
  destruct (strict_eq_string v "success"); reflexivity.
Qed.

(** Like [offline], but with a keyed hash that turns an argument that is
    not a string into one, as [String(x)] does. *)
Definition coercing : runtime :=
  Runtime (Date_now offline) (axios_post offline) Xml2js.parseStringPromise
          (fun k d =>
             Return (Str.toUpperCase (hex_hmac_md5 (js_to_string k) (js_to_string d)))).

(** C3, as stated, fails.  On a new client, whose challenge, cookie and
    public key are [null], [performLogin] goes straight to the keyed hash
    of null + password under [null].  If the hash refuses [null], its
    [TypeError] is what [performLogin] throws, not a handshake failure;
    if the hash accepts it, [performLogin] posts a Login request whose
    LoginPassword is derived from that material. *)
Lemma performLogin_checks_no_handshake_state :
  let c := new_client "192.168.0.1" "Admin" "" in
  performLogin offline (c, fresh_world)
    = (Throw (TypeError "Cannot read properties of null (reading 'length')"),
       (c, fresh_world))
  /\ map req_body (sent (snd (snd (performLogin coercing (c, fresh_world)))))
     = [login_request_body "Admin"
          (Str.toUpperCase
             (hex_hmac_md5 (Str.toUpperCase (hex_hmac_md5 "null" "null")) "null"))].
Proof. vm_compute. split; reflexivity. Qed.

(** C3, amended: [performLogin] tests nothing.  On a new client it
    starts with the keyed hash of null + password under [null]: if that
    throws, [performLogin] throws the same and nothing is posted; if it
    returns a key and the hash for the login password throws,
    [performLogin] throws that with the key stored; if both return, a
    Login request with the derived LoginPassword is posted.  It is
    [login] that keeps the order: when [requestLoginChallenge] throws,
    [login] throws the same from the same state and [performLogin] does
    not run; when it returns, challenge, cookie and public key are all
    set and [login] goes on as [performLogin]. *)
Theorem performLogin_unguarded :
  forall rt : runtime,
    (forall (ip user pw : string) (w : world),
        let c := new_client ip user pw in
        match md5_other rt (JStr ("null" +:+ pw)) JNull with
        | Throw e => performLogin rt (c, w) = (Throw e, (c, w))
        | Return key =>
            match md5_other rt (JStr key) JNull with
            | Throw e =>
                performLogin rt (c, w) = (Throw e, (set_privateKey (JStr key) c, w))
            | Return loginPassword =>
                exists req : request,
                  sent (snd (snd (performLogin rt (c, w)))) = sent w ++ [req]
                  /\ req_body req = login_request_body user loginPassword
            end
        end)
    /\ (forall s : state,
          match requestLoginChallenge rt s with
          | (Throw e, s') => login rt s = (Throw e, s')
          | (Return _, s') =>
              login rt s = performLogin rt s'
              /\ truthy (challenge (fst s')) = true
              /\ truthy (cookie (fst s')) = true
              /\ truthy (publicKey (fst s')) = true
          end).
Proof.
  intros rt. split.
  - intros ip user pw w c. rewrite performLogin_steps.
    change (hmac_upper rt (JStr (js_to_string (publicKey c) +:+ password c)) (challenge c))
      with (md5_other rt (JStr ("null" +:+ pw)) JNull).
    destruct (md5_other rt (JStr ("null" +:+ pw)) JNull) as [key|e]; [|reflexivity].
    change (hmac_upper rt (JStr key) (challenge c)) with (md5_other rt (JStr key) JNull).
    destruct (md5_other rt (JStr key) JNull) as [loginPassword|e]; [|reflexivity].
    destruct (makeHNAPRequest_posts rt "Login" (login_request_body user loginPassword) key
                (set_privateKey (JStr key) c) w eq_refl) as (req & Hsent & _ & Hbody).
    exists req. split; [|exact Hbody].
    rewrite <- Hsent. change (username c) with user.
    destruct (makeHNAPRequest rt _ _ _) as [[response|e] s']; reflexivity.
  - intros s. rewrite login_sequence.
    destruct (requestLoginChallenge rt s) as [[u|e] s'] eqn:Hreq; [|reflexivity].
    split; [reflexivity|]. exact (requestLoginChallenge_returns rt s s' u Hreq).
Qed.

(** * Further properties of the client *)

(** ** What a request does to the client and to the world *)

(** The fields of [this] other than the stored timestamp. *)
Definition same_session (c c' : client) : Prop :=
  routerIP c' = routerIP c /\ username c' = username c /\ password c' = password c
  /\ baseUrl c' = baseUrl c /\ privateKey c' = privateKey c /\ cookie c' = cookie c
  /\ publicKey c' = publicKey c /\ challenge c' = challenge c.

Lemma same_session_refl (c : client) : same_session c c.
Proof. repeat split. Qed.

Lemma same_session_stamp (t : Z) (c : client) : same_session c (set_compareTimeStamp t c).
Proof. repeat split. Qed.

(** The timestamp a call of [getUniqueTimestamp] stores. *)
Definition next_stamp (rt : runtime) (c : client) (w : world) : Z :=
  let t := Z.rem (Date_now rt (clock_reads w)) 2000000000000 in
  if compareTimeStamp c =? t then t + 1 else t.

(** [makeHNAPRequest], case by case. *)
Lemma makeHNAPRequest_cases (rt : runtime) (action body : string) (c : client) (w : world) :
  makeHNAPRequest rt action body (c, w)
  = if truthy (privateKey c)
    then
      let c' := set_compareTimeStamp (next_stamp rt c w) c in
      let w' := World (S (clock_reads w)) (sent w) in
      match hmac_upper rt (privateKey c)
                       (JStr (Str.of_Z (next_stamp rt c w) +:+ soapAction_of action)) with
      | Return signature =>
          posted rt (Request (baseUrl c) body
                       (add_cookie c
                          (<["HNAP_AUTH" := signature +:+ " " +:+ Str.of_Z (next_stamp rt c w)]>
                             (plain_headers action))))
                 c' w'
      | Throw e => (Throw e, (c', w'))
      end
    else posted rt (Request (baseUrl c) body (add_cookie c (plain_headers action))) c w.
Proof.
  destruct (truthy (privateKey c)) eqn:Hkey.
  - rewrite makeHNAPRequest_signed by exact Hkey.
    unfold generateHnapAuth, bind. rewrite getUniqueTimestamp_step. run.
    fold (next_stamp rt c w).
    destruct (hmac_upper rt _ _); reflexivity.
  - apply makeHNAPRequest_unsigned. exact Hkey.
Qed.

(** X1: [makeHNAPRequest] posts one request or none.  Either it posts
    exactly one, to [baseUrl], with the body it was given and the headers
    Content-Type and SOAPAction, and then returns the data of the
    response unchanged or throws the transport's failure under its own
    prefix; or signing has thrown, which takes a private key that is set
    and is not a string, and then nothing is posted. *)
Theorem makeHNAPRequest_one_request :
  forall (rt : runtime) (action body : string) (c : client) (w : world),
    let r := makeHNAPRequest rt action body (c, w) in
    (exists req : request,
        sent (snd (snd r)) = sent w ++ [req]
        /\ req_url req = baseUrl c
        /\ req_body req = body
        /\ req_headers req !! "Content-Type" = Some "text/xml; charset=utf-8"
        /\ req_headers req !! "SOAPAction" = Some (soapAction_of action)
        /\ fst r = match axios_post rt (sent w) req with
                   | Return data => Return data
                   | Throw error => Throw (Error ("HNAP request failed: " +:+ message error))
                   end)
    \/ (sent (snd (snd r)) = sent w
        /\ truthy (privateKey c) = true
        /\ (exists e : exn, fst r = Throw e /\ md5_other rt (privateKey c)
               (JStr (Str.of_Z (next_stamp rt c w) +:+ soapAction_of action)) = Throw e)).
Proof.
  intros rt action body c w r. subst r. rewrite makeHNAPRequest_cases.
  assert (forall h : gmap string string,
             h !! "Content-Type" = Some "text/xml; charset=utf-8" ->
             h !! "SOAPAction" = Some (soapAction_of action) ->
             add_cookie c h !! "Content-Type" = Some "text/xml; charset=utf-8"
             /\ add_cookie c h !! "SOAPAction" = Some (soapAction_of action)) as Hheaders.
  { intros h H1 H2. rewrite !lookup_add_cookie by discriminate. auto. }
  assert (plain_headers action !! "Content-Type" = Some "text/xml; charset=utf-8") as Hct.
  { unfold plain_headers. simplify_map_eq. reflexivity. }
  destruct (plain_headers_lookup action) as (Hsoap & _ & _).
  destruct (truthy (privateKey c)) eqn:Hkey; cbn zeta.
  - destruct (hmac_upper rt (privateKey c) _) as [signature|e] eqn:Hsig.
    + left. eexists. repeat split; cbn.
      * apply Hheaders; rewrite lookup_insert_ne by discriminate; assumption.
      * apply Hheaders; rewrite lookup_insert_ne by discriminate; assumption.
    + right. repeat split. exists e. split; [reflexivity|].
      unfold hmac_upper in Hsig. destruct (privateKey c); try exact Hsig. discriminate.
  - left. eexists. repeat split; cbn; apply Hheaders; assumption.
Qed.

(** X2: [makeHNAPRequest] writes no field of the client but the stored
    timestamp, and with no private key set it writes nothing at all and
    does not read the clock. *)
Theorem makeHNAPRequest_keeps_session :
  forall (rt : runtime) (action body : string) (c : client) (w : world),
    let r := makeHNAPRequest rt action body (c, w) in
    same_session c (fst (snd r))
    /\ (if truthy (privateKey c)
        then compareTimeStamp (fst (snd r)) = next_stamp rt c w
             /\ clock_reads (snd (snd r)) = S (clock_reads w)
        else fst (snd r) = c /\ clock_reads (snd (snd r)) = clock_reads w).
Proof.
  intros rt action body c w r. subst r. rewrite makeHNAPRequest_cases.
  destruct (truthy (privateKey c)); cbn zeta.
  - destruct (hmac_upper rt (privateKey c) _); cbn; repeat split.
  - cbn. repeat split.
Qed.

(** ** Timestamps *)

(** The decimal text of a number reads back as that number. *)
Definition Z_of_string (s : string) : option Z :=
  option_map Z.of_int (DecimalString.NilZero.int_of_string s).

Lemma Z_of_string_of_Z (z : Z) : Z_of_string (Str.of_Z z) = Some z.
Proof.
  unfold Z_of_string, Str.of_Z.
  rewrite DecimalString.NilZero.isi.
  - cbn. f_equal. apply DecimalZ.of_to.
  - destruct z as [|p|p]; cbn; try discriminate.
    intros [= H]. exact (DecimalPos.Unsigned.to_uint_nonnil p H).
  - destruct z as [|p|p]; cbn; try discriminate.
    intros [= H]. exact (DecimalPos.Unsigned.to_uint_nonnil p H).
Qed.

Lemma of_Z_inj (a b : Z) : Str.of_Z a = Str.of_Z b -> a = b.
Proof.
  intros H. pose proof (Z_of_string_of_Z a) as Ha. rewrite H, Z_of_string_of_Z in Ha.
  congruence.
Qed.

Lemma getUniqueTimestamp_next (rt : runtime) (c : client) (w : world) :
  getUniqueTimestamp rt (c, w)
  = (Return (Str.of_Z (next_stamp rt c w)),
     (set_compareTimeStamp (next_stamp rt c w) c, World (S (clock_reads w)) (sent w))).
Proof. apply getUniqueTimestamp_step. Qed.

(** X3: for a non-negative reading of the clock the timestamp lies
    between 0 and 2*10^12, both included: the increment is applied after
    the remainder, so the value 2*10^12 itself is returned when the
    reading is 1999999999999 modulo 2*10^12 and equals the stored
    timestamp, and only then. *)
Theorem getUniqueTimestamp_bounds :
  forall (rt : runtime) (c : client) (w : world),
    0 <= Date_now rt (clock_reads w) ->
    exists t : Z,
      fst (getUniqueTimestamp rt (c, w)) = Return (Str.of_Z t)
      /\ compareTimeStamp (fst (snd (getUniqueTimestamp rt (c, w)))) = t
      /\ 0 <= t <= 2000000000000
      /\ (t = 2000000000000 <->
          Date_now rt (clock_reads w) mod 2000000000000 = 1999999999999
          /\ compareTimeStamp c = 1999999999999).
Proof.
  intros rt c w Hnow. exists (next_stamp rt c w).
  rewrite getUniqueTimestamp_next. cbn. unfold next_stamp.
  rewrite Z.rem_mod_nonneg by lia.
  pose proof (Z.mod_pos_bound (Date_now rt (clock_reads w)) 2000000000000 ltac:(lia)) as Hb.
  destruct (Z.eqb_spec (compareTimeStamp c) (Date_now rt (clock_reads w) mod 2000000000000));
    repeat split; try lia.
Qed.

(** A clock that stands at the last millisecond before the remainder
    wraps. *)
Definition at_the_wrap : runtime :=
  Runtime (fun _ => 1999999999999) (axios_post offline)
          (parseStringPromise offline) (md5_other offline).

Lemma getUniqueTimestamp_bounds_witness :
  fst (successive (getUniqueTimestamp at_the_wrap) 2
         (new_client "192.168.0.1" "Admin" "", fresh_world))
  = Return ["1999999999999"; "2000000000000"]
  /\ exists t : Z,
      fst (getUniqueTimestamp at_the_wrap (new_client "192.168.0.1" "Admin" "", fresh_world))
      = Return (Str.of_Z t)
      /\ compareTimeStamp
           (fst (snd (getUniqueTimestamp at_the_wrap
                        (new_client "192.168.0.1" "Admin" "", fresh_world)))) = t
      /\ 0 <= t <= 2000000000000
      /\ (t = 2000000000000 <->
          Date_now at_the_wrap (clock_reads fresh_world) mod 2000000000000 = 1999999999999
          /\ compareTimeStamp (new_client "192.168.0.1" "Admin" "") = 1999999999999).
Proof.
  split; [vm_compute; reflexivity|].
  apply (getUniqueTimestamp_bounds at_the_wrap (new_client "192.168.0.1" "Admin" "")
           fresh_world).
  vm_compute. discriminate.
Defined.

(** The remainder of the [i]-th reading after those already made. *)
Definition reading (rt : runtime) (w : world) (i : nat) : Z :=
  Z.rem (Date_now rt (clock_reads w + i)) 2000000000000.

Lemma successive_S {A} (m : M A) (n : nat) (s : state) :
  successive m (S n) s
  = match m s with
    | (Return x, s') =>
        match successive m n s' with
        | (Return xs, s'') => (Return (x :: xs), s'')
        | (Throw e, s'') => (Throw e, s'')
        end
    | (Throw e, s') => (Throw e, s')
    end.
Proof.
  cbn [successive]. unfold bind. destruct (m s) as [[x|e] s']; [|reflexivity].
  destruct (successive m n s') as [[xs|e] s'']; reflexivity.
Qed.

(** The induction behind the next theorem; the bound on the stored
    timestamp matters only if a call follows. *)
Lemma getUniqueTimestamp_increasing_from (rt : runtime) (n : nat) :
  forall (c : client) (w : world),
    ((0 < n)%nat -> compareTimeStamp c <= reading rt w 0) ->
    (forall i : nat, (S i < n)%nat -> reading rt w i < reading rt w (S i)) ->
    exists ts : list Z,
      fst (successive (getUniqueTimestamp rt) n (c, w)) = Return (map Str.of_Z ts)
      /\ length ts = n
      /\ Sorted Z.lt (compareTimeStamp c :: ts).
Proof.
  induction n as [|n IH]; intros c w Hstored Hclock.
  - exists []. repeat split. repeat constructor.
  - rewrite successive_S, getUniqueTimestamp_next.
    set (s1 := next_stamp rt c w).
    assert (compareTimeStamp c < s1 /\ s1 <= reading rt w 0 + 1) as [Hlt Hs1].
    { specialize (Hstored ltac:(lia)). subst s1. unfold next_stamp, reading in *.
      rewrite Nat.add_0_r in *.
      destruct (Z.eqb_spec (compareTimeStamp c)
                  (Z.rem (Date_now rt (clock_reads w)) 2000000000000)); lia. }
    set (c1 := set_compareTimeStamp s1 c). set (w1 := World (S (clock_reads w)) (sent w)).
    assert (forall i, reading rt w1 i = reading rt w (S i)) as Hshift.
    { intros i. unfold reading, w1. cbn. do 3 f_equal. lia. }
    destruct (IH c1 w1) as (ts & Hts & Hlen & Hsorted).
    + intros Hn. rewrite Hshift. cbn. specialize (Hclock 0%nat ltac:(lia)). lia.
    + intros i Hi. rewrite !Hshift. apply Hclock. lia.
    + destruct (successive (getUniqueTimestamp rt) n (c1, w1)) as [[xs|e] s''];
        cbn in Hts; [injection Hts as ->|discriminate].
      exists (s1 :: ts). cbn. repeat split.
      * f_equal. exact Hlen.
      * constructor; [exact Hsorted | constructor; exact Hlt].
Qed.

(** X4: when the stored timestamp does not exceed the first reading and
    each later reading is above the one before, [n] calls return the
    decimal texts of [n] numbers that increase strictly, the first of
    them above the stored timestamp. *)
Theorem getUniqueTimestamp_increasing :
  forall (rt : runtime) (n : nat) (c : client) (w : world),
    compareTimeStamp c <= reading rt w 0 ->
    (forall i : nat, (S i < n)%nat -> reading rt w i < reading rt w (S i)) ->
    exists ts : list Z,
      fst (successive (getUniqueTimestamp rt) n (c, w)) = Return (map Str.of_Z ts)
      /\ length ts = n
      /\ Sorted Z.lt (compareTimeStamp c :: ts).
Proof.
  intros rt n c w Hstored Hclock.
  apply getUniqueTimestamp_increasing_from; [intros _; exact Hstored | exact Hclock].
Qed.

(** A clock that advances by one millisecond from one reading to the
    next. *)
Definition ticking : runtime :=
  Runtime (fun n => 1700000000000 + Z.of_nat n) (axios_post offline)
          (parseStringPromise offline) (md5_other offline).

Lemma getUniqueTimestamp_increasing_witness :
  exists ts : list Z,
    fst (successive (getUniqueTimestamp ticking) 3
           (new_client "192.168.0.1" "Admin" "", fresh_world))
    = Return (map Str.of_Z ts)
    /\ length ts = 3%nat
    /\ Sorted Z.lt (compareTimeStamp (new_client "192.168.0.1" "Admin" "") :: ts).
Proof.
  apply (getUniqueTimestamp_increasing ticking 3 (new_client "192.168.0.1" "Admin" "")
           fresh_world).
  - vm_compute. discriminate.
  - intros i Hi.
    destruct i as [|[|i]]; [reflexivity | reflexivity | lia].
Defined.

(** X5: two calls in a row never return the same text, whatever the
    clock does. *)
Theorem getUniqueTimestamp_consecutive_differ :
  forall (rt : runtime) (c : client) (w : world),
    exists first second : string,
      fst (successive (getUniqueTimestamp rt) 2 (c, w)) = Return [first; second]
      /\ String.eqb first second = false.
Proof.
  intros rt c w. rewrite successive_S, getUniqueTimestamp_next.
  rewrite successive_S, getUniqueTimestamp_next. cbn.
  eexists. eexists. split; [reflexivity|].
  apply String.eqb_neq. intros H. apply of_Z_inj in H.
  unfold next_stamp at 2 in H. cbn in H.
  destruct (Z.eqb_spec (next_stamp rt c w)
              (Z.rem (Date_now rt (S (clock_reads w))) 2000000000000)); lia.
Qed.

(** The values a clock that stands still draws: its reading and the
    number after it, in turn. *)
Fixpoint alternating (t : Z) (bump : bool) (n : nat) : list Z :=
  match n with
  | O => []
  | S n' => (if bump then t + 1 else t) :: alternating t (negb bump) n'
  end.

Lemma getUniqueTimestamp_frozen_from (rt : runtime) (t : Z) (n : nat) :
  forall (c : client) (w : world),
    (forall i : nat, (i < n)%nat -> reading rt w i = t) ->
    fst (successive (getUniqueTimestamp rt) n (c, w))
    = Return (map Str.of_Z (alternating t (compareTimeStamp c =? t) n)).
Proof.
  induction n as [|n IH]; intros c w Hclock; [reflexivity|].
  rewrite successive_S, getUniqueTimestamp_next.
  assert (next_stamp rt c w = if compareTimeStamp c =? t then t + 1 else t) as Hnext.
  { unfold next_stamp. specialize (Hclock 0%nat ltac:(lia)). unfold reading in Hclock.
    rewrite Nat.add_0_r in Hclock. rewrite Hclock. reflexivity. }
  specialize (IH (set_compareTimeStamp (next_stamp rt c w) c)
                 (World (S (clock_reads w)) (sent w))).
  destruct (successive (getUniqueTimestamp rt) n _) as [[xs|e] s''] eqn:Hrest; cbn in IH |- *.
  - rewrite Hnext. f_equal. f_equal.
    assert (Return xs = Return (map Str.of_Z
              (alternating t (next_stamp rt c w =? t) n))) as [= ->].
    { apply IH. intros i Hi. specialize (Hclock (S i) ltac:(lia)).
      unfold reading in *. cbn. rewrite <- Hclock. do 3 f_equal. lia. }
    rewrite Hnext. destruct (Z.eqb_spec (compareTimeStamp c) t) as [E|E]; cbn.
    + destruct (Z.eqb_spec (t + 1) t); [lia | reflexivity].
    + rewrite Z.eqb_refl. reflexivity.
  - exfalso. assert (Throw e = Return (map Str.of_Z
              (alternating t (next_stamp rt c w =? t) n))) as Habs; [|discriminate].
    apply IH. intros i Hi. specialize (Hclock (S i) ltac:(lia)).
    unfold reading in *. cbn. rewrite <- Hclock. do 3 f_equal. lia.
Qed.

(** X6: while the clock stands still at [t], the calls return [t] and
    [t + 1] in turn, starting with [t + 1] if [t] is the stored
    timestamp: every value from the third on has been returned before. *)
Theorem getUniqueTimestamp_frozen_clock :
  forall (rt : runtime) (n : nat) (c : client) (w : world),
    (forall i : nat, (i < n)%nat -> reading rt w i = reading rt w 0) ->
    fst (successive (getUniqueTimestamp rt) n (c, w))
    = Return (map Str.of_Z
                (alternating (reading rt w 0) (compareTimeStamp c =? reading rt w 0) n)).
Proof.
  intros rt n c w Hclock. apply getUniqueTimestamp_frozen_from. exact Hclock.
Qed.

Lemma getUniqueTimestamp_frozen_clock_witness :
  fst (successive (getUniqueTimestamp offline) 5
         (new_client "192.168.0.1" "Admin" "", fresh_world))
  = Return (map Str.of_Z
              [1700000000000; 1700000000001; 1700000000000; 1700000000001; 1700000000000]).
Proof.
  rewrite (getUniqueTimestamp_frozen_clock offline 5
             (new_client "192.168.0.1" "Admin" "") fresh_world).
  - reflexivity.
  - intros i _. reflexivity.
Defined.

(** ** The SOAP codec *)

Lemma concat_all_app (l1 l2 : list string) :
  Str.concat_all (l1 ++ l2) = Str.concat_all l1 +:+ Str.concat_all l2.
Proof.
  induction l1 as [|s l1 IH]; cbn; [reflexivity|].
  rewrite IH, string_app_assoc. reflexivity.
Qed.

(** X7: [createSOAP] escapes nothing.  A value that holds the closing
    tag of its own parameter, further elements and the opening tag again
    gives, character for character, the envelope of the longer parameter
    list in which those elements are parameters of their own. *)
Theorem createSOAP_does_not_escape :
  forall (action key before after : string) (inserted rest : list (string * string)),
    createSOAP action
      ((key, before +:+ "</" +:+ key +:+ ">"
               +:+ Str.concat_all (map parameter_element inserted)
               +:+ "<" +:+ key +:+ ">" +:+ after) :: rest)
    = createSOAP action ((key, before) :: inserted ++ (key, after) :: rest).
Proof.
  intros action key before after inserted rest.
  rewrite !createSOAP_elements. f_equal. f_equal.
  cbn [map Str.concat_all]. rewrite map_app, concat_all_app. cbn [map Str.concat_all].
  change (parameter_element (key, before)) with ("<" +:+ key +:+ ">" +:+ before +:+ "</" +:+ key +:+ ">").
  change (parameter_element (key, after)) with ("<" +:+ key +:+ ">" +:+ after +:+ "</" +:+ key +:+ ">").
  match goal with
  | |- parameter_element (key, ?v) +:+ _ = _ =>
      change (parameter_element (key, v)) with ("<" +:+ key +:+ ">" +:+ v +:+ "</" +:+ key +:+ ">")
  end.
  rewrite !string_app_assoc. reflexivity.
Qed.

(** ** Responses *)

(** X8: an exception of the parser leaves [parseXmlResponse] as an
    [Error] with the parser's message after the parsing-failure prefix. *)
Theorem parseXmlResponse_parser_failure :
  forall (rt : runtime) (xml : string) (e : exn),
    parseStringPromise rt xml = Throw e ->
    parseXmlResponse rt xml = Throw (Error ("XML parsing failed: " +:+ message e)).
Proof.
  intros rt xml e Hparse. unfold parseXmlResponse. rewrite Hparse. reflexivity.
Qed.

Lemma parseXmlResponse_parser_failure_witness :
  parseXmlResponse offline "<a><b></a></b>"
  = Throw (Error "XML parsing failed: not well-formed").
Proof.
  apply (parseXmlResponse_parser_failure offline "<a><b></a></b>" (Error "not well-formed")).
  vm_compute. reflexivity.
Defined.

(** X9: when the parser returns [null], as xml2js does for a text
    without content, or [undefined], reading [Envelope] from it throws
    inside the [try]: the caller gets the parsing failure, never the
    malformed-envelope message and never the [TypeError] itself. *)
Theorem parseXmlResponse_no_document :
  forall (rt : runtime) (xml : string) (tree : jsval),
    parseStringPromise rt xml = Return tree ->
    tree = JNull \/ tree = JUndefined ->
    exists m : string,
      get tree "Envelope" = Throw (TypeError m)
      /\ parseXmlResponse rt xml = Throw (Error ("XML parsing failed: " +:+ m)).
Proof.
  intros rt xml tree Hparse [-> | ->]; unfold parseXmlResponse; rewrite Hparse;
    eexists; split; reflexivity.
Qed.

Lemma parseXmlResponse_no_document_witness :
  exists m : string,
    get JNull "Envelope" = Throw (TypeError m)
    /\ parseXmlResponse offline "" = Throw (Error ("XML parsing failed: " +:+ m)).
Proof.
  apply (parseXmlResponse_no_document offline "" JNull).
  - vm_compute. reflexivity.
  - left. reflexivity.
Defined.

(** X10: [parseXmlResponse] returns a value only for a tree with an
    [Envelope] that is set and a [Body] under it that is set, and the
    value is that of the first own property of the [Body], [undefined]
    if there is none. *)
Theorem parseXmlResponse_returns_only_from_Body :
  forall (rt : runtime) (xml : string) (v : jsval),
    parseXmlResponse rt xml = Return v ->
    exists tree : jsval,
      parseStringPromise rt xml = Return tree
      /\ truthy (entry "Envelope" tree) = true
      /\ truthy (entry "Body" (entry "Envelope" tree)) = true
      /\ v = match own_props (entry "Body" (entry "Envelope" tree)) with
             | (_, first) :: _ => first
             | [] => JUndefined
             end.
Proof.
  intros rt xml v. unfold parseXmlResponse.
  destruct (parseStringPromise rt xml) as [tree|e]; [|discriminate].
  intros H. exists tree. split; [reflexivity|]. revert H. cbn [obind].
  assert (get tree "Envelope" = Return (entry "Envelope" tree)
          \/ exists m, get tree "Envelope" = Throw m) as [Hget | [m Hget]].
  { destruct tree; cbn; eauto. }
  2: { rewrite Hget. discriminate. }
  rewrite Hget. cbn.
  destruct (truthy (entry "Envelope" tree)) eqn:He; cbn; [|discriminate].
  rewrite (get_defined _ _ He). cbn.
  destruct (truthy (entry "Body" (entry "Envelope" tree))) eqn:Hb; cbn; [|discriminate].
  rewrite (get_defined _ _ Hb).
  generalize (entry "Body" (entry "Envelope" tree)). intros b.
  unfold Object_keys, entry.
  destruct (own_props b) as [|[k first] others]; cbn.
  - intros [= <-]. auto.
  - rewrite String.eqb_refl. intros [= <-]. auto.
Qed.

Lemma parseXmlResponse_returns_only_from_Body_witness :
  exists tree : jsval,
    parseStringPromise offline "<Envelope><Body><R>1</R></Body></Envelope>" = Return tree
    /\ truthy (entry "Envelope" tree) = true
    /\ truthy (entry "Body" (entry "Envelope" tree)) = true
    /\ JStr "1" = match own_props (entry "Body" (entry "Envelope" tree)) with
                  | (_, first) :: _ => first
                  | [] => JUndefined
                  end.
Proof.
  apply (parseXmlResponse_returns_only_from_Body offline
           "<Envelope><Body><R>1</R></Body></Envelope>" (JStr "1")).
  vm_compute. reflexivity.
Defined.

(** X11: a [Body] that is character data and no element passes the
    guard, its own properties being its characters: [parseXmlResponse]
    returns the first character. *)
Theorem parseXmlResponse_text_Body :
  forall (rt : runtime) (xml : string) (root envelope : list (string * jsval))
         (first : ascii) (others : string),
    parseStringPromise rt xml = Return (JObj root) ->
    lookup_prop "Envelope" root = JObj envelope ->
    lookup_prop "Body" envelope = JStr (String first others) ->
    parseXmlResponse rt xml = Return (JStr (String first "")).
Proof.
  intros rt xml root envelope first others Hparse He Hb.
  rewrite (parseXmlResponse_root rt xml root Hparse). cbn zeta.
  rewrite He. unfold entry. cbn. rewrite Hb. reflexivity.
Qed.

Lemma parseXmlResponse_text_Body_witness :
  parseXmlResponse offline "<Envelope><Body>busy</Body></Envelope>" = Return (JStr "b").
Proof.
  apply (parseXmlResponse_text_Body offline _
           [("Envelope", JObj [("Body", JStr "busy")])] [("Body", JStr "busy")]
           "b"%char "usy");
    vm_compute; reflexivity.
Defined.

(** ** The handshake, step by step *)

Lemma makeHNAPRequest_session (rt : runtime) (action body : string) (c : client) (w : world) :
  same_session c (fst (snd (makeHNAPRequest rt action body (c, w)))).
Proof.
  rewrite makeHNAPRequest_cases.
  destruct (truthy (privateKey c)); cbn zeta.
  - destruct (hmac_upper rt (privateKey c) _); cbn; repeat split.
  - cbn. repeat split.
Qed.

(** A request that has returned was posted, once. *)
Lemma makeHNAPRequest_returned (rt : runtime) (action body response : string)
      (c c1 : client) (w w1 : world) :
  makeHNAPRequest rt action body (c, w) = (Return response, (c1, w1)) ->
  same_session c c1
  /\ exists req : request, sent w1 = sent w ++ [req] /\ req_body req = body.
Proof.
  intros H. split.
  - pose proof (makeHNAPRequest_session rt action body c w) as Hs.
    rewrite H in Hs. exact Hs.
  - revert H. rewrite makeHNAPRequest_cases.
    destruct (truthy (privateKey c)); cbn zeta.
    + destruct (hmac_upper rt (privateKey c) _); [|discriminate].
      unfold posted. intros [= _ _ <-]. cbn. eexists. split; reflexivity.
    + unfold posted. intros [= _ _ <-]. cbn. eexists. split; reflexivity.
Qed.

(** [requestLoginChallenge], case by case. *)
Lemma requestLoginChallenge_cases (rt : runtime) (c : client) (w : world) :
  requestLoginChallenge rt (c, w)
  = match makeHNAPRequest rt "Login" (challenge_request_body (username c)) (c, w) with
    | (Throw e, s') => (Throw e, s')
    | (Return response, (c1, w1)) =>
        match parseXmlResponse rt response with
        | Throw e => (Throw e, (c1, w1))
        | Return result =>
            match get result "Challenge" with
            | Throw e => (Throw e, (c1, w1))
            | Return _ =>
                (if truthy (entry "Challenge" result) && truthy (entry "Cookie" result)
                    && truthy (entry "PublicKey" result)
                 then Return tt
                 else Throw (Error "Login challenge request failed"),
                 (store_challenge (own_props result) c1, w1))
            end
        end
    end.
Proof.
  unfold requestLoginChallenge, challenge_request_body. run.
  destruct (makeHNAPRequest rt _ _ (c, w)) as [[response|e] [c1 w1]]; [|reflexivity].
  destruct (parseXmlResponse rt response) as [result|e]; [|reflexivity]. cbn.
  destruct result as [| |s|props|items]; try reflexivity; cbn; unfold store_challenge, entry;
    cbn [own_props];
    match goal with
    | |- context [truthy (lookup_prop "Challenge" ?l)] =>
        destruct (truthy (lookup_prop "Challenge" l)),
                 (truthy (lookup_prop "Cookie" l)),
                 (truthy (lookup_prop "PublicKey" l)); reflexivity
    end.
Qed.

(** The response gave nothing to store: the request failed, or the
    parsing did, or it returned [null] or [undefined]. *)
Definition no_result (rt : runtime) (answer : outcome string) : Prop :=
  match answer with
  | Throw _ => True
  | Return response =>
      match parseXmlResponse rt response with
      | Throw _ | Return JNull | Return JUndefined => True
      | Return _ => False
      end
  end.

(** X12: when the challenge request gives nothing to store,
    [requestLoginChallenge] throws and the client is as the request left
    it: challenge, cookie and public key are what they were. *)
Theorem requestLoginChallenge_early_failure :
  forall (rt : runtime) (c : client) (w : world),
    let q := makeHNAPRequest rt "Login" (challenge_request_body (username c)) (c, w) in
    let r := requestLoginChallenge rt (c, w) in
    no_result rt (fst q) ->
    snd r = snd q
    /\ same_session c (fst (snd r))
    /\ exists e : exn, fst r = Throw e.
Proof.
  intros rt c w q r Hno. subst r. rewrite requestLoginChallenge_cases.
  pose proof (makeHNAPRequest_session rt "Login" (challenge_request_body (username c)) c w)
    as Hs. fold q in Hs |- *.
  destruct q as [[response|e] [c1 w1]]; cbn in Hno, Hs |- *.
  - destruct (parseXmlResponse rt response) as [result|e]; [|eauto].
    destruct result; try contradiction; cbn; eauto.
  - eauto.
Qed.

Lemma requestLoginChallenge_early_failure_witness :
  let c := signed_in in
  let r := requestLoginChallenge offline (c, fresh_world) in
  same_session c (fst (snd r))
  /\ fst r = Throw (Error "HNAP request failed: connect EHOSTUNREACH").
Proof.
  cbv zeta.
  destruct (requestLoginChallenge_early_failure offline signed_in fresh_world)
    as (_ & Hs & _).
  - vm_compute. exact I.
  - split; [exact Hs | vm_compute; reflexivity].
Defined.

Lemma requestLoginChallenge_keeps_identity (rt : runtime) (c : client) (w : world) :
  username (fst (snd (requestLoginChallenge rt (c, w)))) = username c.
Proof.
  rewrite requestLoginChallenge_cases.
  pose proof (makeHNAPRequest_session rt "Login" (challenge_request_body (username c)) c w)
    as Hs.
  destruct (makeHNAPRequest rt _ _ (c, w)) as [[response|e] [c1 w1]];
    cbn in Hs |- *; destruct Hs as (_ & H2 & _).
  - destruct (parseXmlResponse rt response) as [result|e]; [|cbn; auto].
    destruct (get result "Challenge"); cbn; auto.
  - auto.
Qed.

(** X13: [requestLoginChallenge] never writes the private key, nor the
    address, the user name, the password and the URL: a private key left
    from an earlier login stays in place, and signs the challenge
    request. *)
Theorem requestLoginChallenge_keeps_privateKey :
  forall (rt : runtime) (c : client) (w : world),
    let c' := fst (snd (requestLoginChallenge rt (c, w))) in
    privateKey c' = privateKey c
    /\ routerIP c' = routerIP c /\ username c' = username c
    /\ password c' = password c /\ baseUrl c' = baseUrl c.
Proof.
  intros rt c w c'. subst c'. rewrite requestLoginChallenge_cases.
  pose proof (makeHNAPRequest_session rt "Login" (challenge_request_body (username c)) c w)
    as Hs.
  destruct (makeHNAPRequest rt _ _ (c, w)) as [[response|e] [c1 w1]];
    cbn in Hs |- *; destruct Hs as (H1 & H2 & H3 & H4 & H5 & _).
  - destruct (parseXmlResponse rt response) as [result|e]; [|cbn; auto].
    destruct (get result "Challenge"); cbn; auto.
  - auto.
Qed.

(** The private key and the login password that [performLogin] derives
    from a public key and a challenge that are strings. *)
Definition derived_key (c : client) (pk ch : string) : string :=
  Str.toUpperCase (hex_hmac_md5 (pk +:+ password c) ch).

Definition derived_password (c : client) (pk ch : string) : string :=
  Str.toUpperCase (hex_hmac_md5 (derived_key c pk ch) ch).

(** [performLogin] on string material, up to the response. *)
Lemma performLogin_on_strings (rt : runtime) (c : client) (w : world) (pk ch : string) :
  publicKey c = JStr pk ->
  challenge c = JStr ch ->
  performLogin rt (c, w)
  = match makeHNAPRequest rt "Login"
            (login_request_body (username c) (derived_password c pk ch))
            (set_privateKey (JStr (derived_key c pk ch)) c, w) with
    | (Return response, s') => (login_verdict rt response, s')
    | (Throw e, s') => (Throw e, s')
    end.
Proof.
  intros Hpk Hch. rewrite performLogin_steps, Hpk, Hch. reflexivity.
Qed.

(** X14: with a public key and a challenge that are strings,
    [performLogin] leaves the derived key in [privateKey] however it
    ends, also when the router refuses the login or cannot be reached;
    cookie, public key and challenge stay as they were. *)
Theorem performLogin_stores_key :
  forall (rt : runtime) (c : client) (w : world) (pk ch : string),
    publicKey c = JStr pk ->
    challenge c = JStr ch ->
    let c' := fst (snd (performLogin rt (c, w))) in
    privateKey c' = JStr (derived_key c pk ch)
    /\ cookie c' = cookie c /\ publicKey c' = publicKey c /\ challenge c' = challenge c.
Proof.
  intros rt c w pk ch Hpk Hch c'. subst c'.
  rewrite (performLogin_on_strings rt c w pk ch Hpk Hch).
  pose proof (makeHNAPRequest_session rt "Login"
                (login_request_body (username c) (derived_password c pk ch))
                (set_privateKey (JStr (derived_key c pk ch)) c) w) as Hs.
  destruct (makeHNAPRequest rt _ _ _) as [[response|e] s'];
    cbn in Hs |- *; destruct Hs as (_ & _ & _ & _ & H5 & H6 & H7 & H8); auto.
Qed.

(** A client that holds the material of the spec's end-to-end scenario. *)
Definition challenged : client :=
  set_cookie (JStr "5hwbxGMqLd")
    (set_challenge (JStr "1234567890ABCDEF")
       (set_publicKey (JStr "FEDCBA0987654321") (new_client "192.168.0.1" "Admin" ""))).

Lemma performLogin_stores_key_witness :
  fst (performLogin offline (challenged, fresh_world))
  = Throw (Error "HNAP request failed: connect EHOSTUNREACH")
  /\ privateKey (fst (snd (performLogin offline (challenged, fresh_world))))
     = JStr (derived_key challenged "FEDCBA0987654321" "1234567890ABCDEF").
Proof.
  split; [vm_compute; reflexivity|].
  apply (performLogin_stores_key offline challenged fresh_world
           "FEDCBA0987654321" "1234567890ABCDEF"); reflexivity.
Defined.

(** X15: with a public key and a challenge that are strings,
    [performLogin] posts one request: its body is the Login envelope with
    Action login and the derived password, its HNAP_AUTH is signed with
    the key just derived, and it carries the cookie if one is set. *)
Theorem performLogin_request :
  forall (rt : runtime) (c : client) (w : world) (pk ch : string),
    publicKey c = JStr pk ->
    challenge c = JStr ch ->
    exists (req : request) (timestamp : string),
      sent (snd (snd (performLogin rt (c, w)))) = sent w ++ [req]
      /\ fst (getUniqueTimestamp rt (c, w)) = Return timestamp
      /\ req_body req = login_request_body (username c) (derived_password c pk ch)
      /\ req_headers req !! "HNAP_AUTH"
         = Some (Str.toUpperCase
                   (hex_hmac_md5 (derived_key c pk ch) (timestamp +:+ soapAction_of "Login"))
                 +:+ " " +:+ timestamp)
      /\ req_headers req !! "Cookie"
         = if truthy (cookie c) then Some ("uid=" +:+ js_to_string (cookie c)) else None.
Proof.
  intros rt c w pk ch Hpk Hch.
  rewrite (performLogin_on_strings rt c w pk ch Hpk Hch).
  rewrite makeHNAPRequest_cases.
  cbn [privateKey set_privateKey baseUrl].
  unfold derived_key at 1. rewrite digest_truthy. fold (derived_key c pk ch).
  cbn zeta. unfold hmac_upper. cbv iota beta.
  change (next_stamp rt (set_privateKey (JStr (derived_key c pk ch)) c) w)
    with (next_stamp rt c w).
  rewrite getUniqueTimestamp_next. unfold posted. cbn [fst snd sent].
  eexists. exists (Str.of_Z (next_stamp rt c w)).
  split.
  { destruct (axios_post rt (sent w) _); reflexivity. }
  split; [reflexivity|]. split; [reflexivity|]. cbn [req_headers]. split.
  - rewrite lookup_add_cookie by discriminate. apply lookup_insert_eq.
  - rewrite lookup_add_cookie_Cookie; [reflexivity|].
    rewrite lookup_insert_ne by discriminate.
    destruct (plain_headers_lookup "Login") as (_ & _ & Hc). exact Hc.
Qed.

Lemma performLogin_request_witness :
  exists (req : request) (timestamp : string),
    sent (snd (snd (performLogin offline (challenged, fresh_world)))) = sent fresh_world ++ [req]
    /\ fst (getUniqueTimestamp offline (challenged, fresh_world)) = Return timestamp
    /\ req_body req
       = login_request_body (username challenged)
           (derived_password challenged "FEDCBA0987654321" "1234567890ABCDEF")
    /\ req_headers req !! "HNAP_AUTH"
       = Some (Str.toUpperCase
                 (hex_hmac_md5 (derived_key challenged "FEDCBA0987654321" "1234567890ABCDEF")
                    (timestamp +:+ soapAction_of "Login"))
               +:+ " " +:+ timestamp)
    /\ req_headers req !! "Cookie" = Some "uid=5hwbxGMqLd".
Proof.
  apply (performLogin_request offline challenged fresh_world
           "FEDCBA0987654321" "1234567890ABCDEF"); reflexivity.
Defined.

Lemma strict_eq_string_true (v : jsval) (s : string) :
  strict_eq_string v s = true -> v = JStr s.
Proof.
  destruct v; cbn; try discriminate. intros H. f_equal. apply String.eqb_eq. exact H.
Qed.

(** A router that accepts every login: it answers each request with a
    LoginResponse that has all the fields of both phases. *)
Definition accepting : runtime :=
  Runtime (Date_now ticking)
          (fun _ _ =>
             Return ("<soap:Envelope xmlns:soap='http://schemas.xmlsoap.org/soap/envelope/'>"
                     +:+ "<soap:Body><LoginResponse xmlns='http://purenetworks.com/HNAP1/'>"
                     +:+ "<LoginResult>success</LoginResult>"
                     +:+ "<Challenge>1234567890ABCDEF</Challenge>"
                     +:+ "<Cookie>5hwbxGMqLd</Cookie>"
                     +:+ "<PublicKey>FEDCBA0987654321</PublicKey>"
                     +:+ "</LoginResponse></soap:Body></soap:Envelope>"))
          Xml2js.parseStringPromise
          (md5_other offline).

(** X17: when [login] returns, exactly two requests have been posted,
    first the challenge request and then the login request, both for the
    user name of the client; the private key is a string, and challenge,
    cookie and public key are set. *)
Theorem login_returns :
  forall (rt : runtime) (c c' : client) (w w' : world) (u : unit),
    login rt (c, w) = (Return u, (c', w')) ->
    exists (req1 req2 : request) (key loginPassword : string),
      sent w' = sent w ++ [req1; req2]
      /\ req_body req1 = challenge_request_body (username c)
      /\ req_body req2 = login_request_body (username c) loginPassword
      /\ privateKey c' = JStr key
      /\ truthy (challenge c') = true
      /\ truthy (cookie c') = true
      /\ truthy (publicKey c') = true.
Proof.
  intros rt c c' w w' u. rewrite login_sequence.
  destruct (requestLoginChallenge rt (c, w)) as [[u1|e] [c1 w1]] eqn:Hphase1; [|discriminate].
  destruct (requestLoginChallenge_returns rt (c, w) (c1, w1) u1 Hphase1) as (Hch & Hck & Hpk).
  pose proof (requestLoginChallenge_keeps_identity rt c w) as Hid.
  rewrite Hphase1 in Hid. cbn in Hid, Hch, Hck, Hpk.
  assert (exists req1, sent w1 = sent w ++ [req1]
                       /\ req_body req1 = challenge_request_body (username c))
    as (req1 & Hsent1 & Hbody1).
  { revert Hphase1. rewrite requestLoginChallenge_cases.
    destruct (makeHNAPRequest rt _ _ (c, w)) as [[response|e] [c0 w0]] eqn:Hreq; [|discriminate].
    destruct (makeHNAPRequest_returned rt _ _ _ _ _ _ _ Hreq) as (_ & req & Hs & Hb).
    destruct (parseXmlResponse rt response) as [result|e]; [|discriminate].
    destruct (get result "Challenge"); [|discriminate].
    intros [= _ _ <-]. eauto. }
  rewrite performLogin_steps.
  destruct (hmac_upper rt _ (challenge c1)) as [key|e]; [|discriminate].
  destruct (hmac_upper rt (JStr key) (challenge c1)) as [loginPassword|e]; [|discriminate].
  destruct (makeHNAPRequest rt _ _ _) as [[response|e] [c2 w2]] eqn:Hreq; [|discriminate].
  destruct (makeHNAPRequest_returned rt _ _ _ _ _ _ _ Hreq) as (Hs & req2 & Hsent2 & Hbody2).
  intros [= _ <- <-].
  destruct Hs as (_ & _ & _ & _ & H5 & H6 & H7 & H8). cbn in H5, H6, H7, H8.
  exists req1, req2, key, loginPassword.
  rewrite Hsent2, Hsent1, <- app_assoc. cbn [app].
  rewrite H5, H6, H7, H8, Hbody2, Hid. repeat split; assumption.
Qed.

Lemma login_returns_witness :
  exists (req1 req2 : request) (key loginPassword : string),
    sent (snd (snd (login accepting (new_client "192.168.0.1" "Admin" "", fresh_world))))
    = sent fresh_world ++ [req1; req2]
    /\ req_body req1 = challenge_request_body "Admin"
    /\ req_body req2 = login_request_body "Admin" loginPassword
    /\ privateKey (fst (snd (login accepting (new_client "192.168.0.1" "Admin" "",
                                              fresh_world)))) = JStr key
    /\ truthy (challenge (fst (snd (login accepting (new_client "192.168.0.1" "Admin" "",
                                                     fresh_world))))) = true
    /\ truthy (cookie (fst (snd (login accepting (new_client "192.168.0.1" "Admin" "",
                                                  fresh_world))))) = true
    /\ truthy (publicKey (fst (snd (login accepting (new_client "192.168.0.1" "Admin" "",
                                                     fresh_world))))) = true.
Proof.
  apply (login_returns accepting (new_client "192.168.0.1" "Admin" "") _ fresh_world _ tt).
  vm_compute. reflexivity.
Defined.

(** X18: [generatePrivateKey] does not stop at a public key that is
    [null] or [undefined]: [+] turns it into the text null or undefined,
    and the key is the digest keyed by that text followed by the
    password. *)
Theorem generatePrivateKey_missing_publicKey :
  forall (rt : runtime) (c : client) (w : world) (ch : string),
    challenge c = JStr ch ->
    (publicKey c = JNull ->
     generatePrivateKey rt (c, w)
     = (Return (Str.toUpperCase (hex_hmac_md5 ("null" +:+ password c) ch)), (c, w)))
    /\ (publicKey c = JUndefined ->
        generatePrivateKey rt (c, w)
        = (Return (Str.toUpperCase (hex_hmac_md5 ("undefined" +:+ password c) ch)), (c, w))).
Proof.
  intros rt c w ch Hch. rewrite generatePrivateKey_eq, Hch.
  split; intros ->; reflexivity.
Qed.

(** A router that answers the challenge request without a [PublicKey]. *)
Definition no_publicKey_router : runtime :=
  Runtime (Date_now offline)
          (fun _ _ =>
             Return ("<soap:Envelope xmlns:soap='http://schemas.xmlsoap.org/soap/envelope/'>"
                     +:+ "<soap:Body><LoginResponse xmlns='http://purenetworks.com/HNAP1/'>"
                     +:+ "<Challenge>1234567890ABCDEF</Challenge>"
                     +:+ "<Cookie>5hwbxGMqLd</Cookie>"
                     +:+ "</LoginResponse></soap:Body></soap:Envelope>"))
          Xml2js.parseStringPromise
          (md5_other offline).

(** After a challenge response without a public key the field is
    [undefined], and a key is derived from it all the same. *)
Lemma generatePrivateKey_missing_publicKey_witness :
  let s := snd (requestLoginChallenge no_publicKey_router
                  (new_client "192.168.0.1" "Admin" "secret", fresh_world)) in
  publicKey (fst s) = JUndefined
  /\ generatePrivateKey no_publicKey_router (fst s, snd s)
     = (Return (Str.toUpperCase (hex_hmac_md5 ("undefined" +:+ "secret") "1234567890ABCDEF")),
        (fst s, snd s)).
Proof.
  cbv zeta. split; [vm_compute; reflexivity|].
  refine (proj2 (generatePrivateKey_missing_publicKey no_publicKey_router _ _
                   "1234567890ABCDEF" _) _); vm_compute; reflexivity.
Defined.

(** ** The device operations *)

(** The operations with the action and the parameters of each. *)
Definition operations (rt : runtime) (radio : string)
  : list (M jsval * (string * list (string * string))) :=
  [ (getDeviceSettings rt, ("GetDeviceSettings", []));
    (getWanSettings rt, ("GetWanSettings", []));
    (getWirelessSettings rt radio, ("GetWLanRadioSettings", [("RadioID", radio)]));
    (getConnectedClients rt, ("GetClientInfo", []));
    (reboot rt, ("Reboot", [])) ].

(** Each is the request for its envelope followed by the parsing of the
    response. *)
Lemma operation_steps (rt : runtime) (radio : string) (op : M jsval) (action : string)
      (params : list (string * string)) (s : state) :
  In (op, (action, params)) (operations rt radio) ->
  op s = match makeHNAPRequest rt action (createSOAP action params) s with
         | (Return response, s') => (parseXmlResponse rt response, s')
         | (Throw e, s') => (Throw e, s')
         end.
Proof.
  intros Hin. cbn in Hin.
  repeat (destruct Hin as [[= <- <- <-] | Hin];
          [unfold getDeviceSettings, getWanSettings, getWirelessSettings,
             getConnectedClients, reboot, bind, lift;
           destruct (makeHNAPRequest rt _ _ s) as [[response|e] s']; reflexivity|]).
  contradiction.
Qed.

(** The private key is what the class makes it: [null] or a string. *)
Definition usual_key (c : client) : Prop :=
  privateKey c = JNull \/ exists key : string, privateKey c = JStr key.

Lemma makeHNAPRequest_usual_key (rt : runtime) (action body : string) (c : client) (w : world) :
  usual_key c ->
  exists (c' : client) (w' : world) (req : request),
    makeHNAPRequest rt action body (c, w)
    = (match axios_post rt (sent w) req with
       | Return data => Return data
       | Throw error => Throw (Error ("HNAP request failed: " +:+ message error))
       end, (c', w'))
    /\ sent w' = sent w ++ [req]
    /\ req_body req = body
    /\ req_headers req !! "SOAPAction" = Some (soapAction_of action)
    /\ (privateKey c = JNull -> req_headers req !! "HNAP_AUTH" = None).
Proof.
  intros Hkey. rewrite makeHNAPRequest_cases.
  destruct (plain_headers_lookup action) as (Hsoap & Hauth & _).
  destruct Hkey as [Hnull | [key Hkey]].
  - rewrite Hnull. cbn [truthy]. unfold posted. do 3 eexists.
    split; [reflexivity|]. cbn. repeat split.
    + rewrite lookup_add_cookie by discriminate. exact Hsoap.
    + intros _. rewrite lookup_add_cookie by discriminate. exact Hauth.
  - rewrite Hkey. destruct (truthy (JStr key)); cbn zeta.
    + unfold hmac_upper. unfold posted. do 3 eexists.
      split; [reflexivity|]. cbn. repeat split.
      * rewrite lookup_add_cookie by discriminate.
        rewrite lookup_insert_ne by discriminate. exact Hsoap.
      * discriminate.
    + unfold posted. do 3 eexists. split; [reflexivity|]. cbn. repeat split.
      * rewrite lookup_add_cookie by discriminate. exact Hsoap.
      * discriminate.
Qed.

(** X19: none of the five operations looks at the state of the
    handshake.  With the private key [null] or a string, each posts
    exactly one request, whose body is the envelope of its action and
    parameters and whose SOAPAction is the quoted action URI, without
    HNAP_AUTH when the private key is [null]; and it writes no field of
    the client but the stored timestamp. *)
Theorem operations_post_one_request :
  forall (rt : runtime) (radio : string) (op : M jsval) (action : string)
         (params : list (string * string)) (c : client) (w : world),
    In (op, (action, params)) (operations rt radio) ->
    usual_key c ->
    exists req : request,
      sent (snd (snd (op (c, w)))) = sent w ++ [req]
      /\ req_body req = createSOAP action params
      /\ req_headers req !! "SOAPAction" = Some (soapAction_of action)
      /\ (privateKey c = JNull -> req_headers req !! "HNAP_AUTH" = None)
      /\ same_session c (fst (snd (op (c, w)))).
Proof.
  intros rt radio op action params c w Hin Hkey.
  rewrite (operation_steps rt radio op action params (c, w) Hin).
  pose proof (makeHNAPRequest_session rt action (createSOAP action params) c w) as Hs.
  destruct (makeHNAPRequest_usual_key rt action (createSOAP action params) c w Hkey)
    as (c' & w' & req & Hreq & Hsent & Hbody & Hsoap & Hauth).
  rewrite Hreq in Hs |- *. cbn in Hs. exists req.
  destruct (axios_post rt (sent w) req); cbn; auto.
Qed.

Lemma operations_post_one_request_witness :
  exists req : request,
    sent (snd (snd (getWirelessSettings offline "RADIO_5GHz"
                      (new_client "192.168.0.1" "Admin" "", fresh_world))))
    = sent fresh_world ++ [req]
    /\ req_body req = createSOAP "GetWLanRadioSettings" [("RadioID", "RADIO_5GHz")]
    /\ req_headers req !! "SOAPAction" = Some (soapAction_of "GetWLanRadioSettings")
    /\ (privateKey (new_client "192.168.0.1" "Admin" "") = JNull ->
        req_headers req !! "HNAP_AUTH" = None)
    /\ same_session (new_client "192.168.0.1" "Admin" "")
         (fst (snd (getWirelessSettings offline "RADIO_5GHz"
                      (new_client "192.168.0.1" "Admin" "", fresh_world)))).
Proof.
  apply (operations_post_one_request offline "RADIO_5GHz").
  - cbn. auto.
  - left. reflexivity.
Defined.

(** X20: with the private key [null] or a string, an operation that
    throws throws an [Error] whose message starts with the prefix of a
    failed request or with that of a failed parsing; no other exception
    leaves it. *)
Theorem operations_failures :
  forall (rt : runtime) (radio : string) (op : M jsval) (action : string)
         (params : list (string * string)) (c : client) (w : world),
    In (op, (action, params)) (operations rt radio) ->
    usual_key c ->
    match fst (op (c, w)) with
    | Return _ => True
    | Throw e =>
        exists m : string,
          e = Error ("HNAP request failed: " +:+ m) \/ e = Error ("XML parsing failed: " +:+ m)
    end.
Proof.
  intros rt radio op action params c w Hin Hkey.
  rewrite (operation_steps rt radio op action params (c, w) Hin).
  destruct (makeHNAPRequest_usual_key rt action (createSOAP action params) c w Hkey)
    as (c' & w' & req & Hreq & _).
  rewrite Hreq.
  destruct (axios_post rt (sent w) req) as [data|error]; cbn.
  - pose proof (parseXmlResponse_failure_kind rt data) as Hkind.
    destruct (parseXmlResponse rt data) as [v|e]; [exact I|].
    destruct Hkind as [m ->]. eauto.
  - eauto.
Qed.

Lemma operations_failures_witness :
  fst (reboot offline (signed_in, fresh_world))
  = Throw (Error "HNAP request failed: connect EHOSTUNREACH")
  /\ match fst (reboot offline (signed_in, fresh_world)) with
     | Return _ => True
     | Throw e =>
         exists m : string,
           e = Error ("HNAP request failed: " +:+ m) \/ e = Error ("XML parsing failed: " +:+ m)
     end.
Proof.
  split; [vm_compute; reflexivity|].
  apply (operations_failures offline "" (reboot offline) "Reboot" [] signed_in fresh_world).
  - cbn. auto 10.
  - right. eexists. reflexivity.
Defined.

(** ** From a new client to a signed operation *)

(** X21: the challenge request of a new client is one request to the
    URL of the router, with the Login envelope for Action request, the
    user name and an empty LoginPassword, and with the headers
    Content-Type and SOAPAction and no other: neither HNAP_AUTH nor
    Cookie. *)
Theorem requestLoginChallenge_first_request :
  forall (rt : runtime) (ip user pw : string) (w : world),
    sent (snd (snd (requestLoginChallenge rt (new_client ip user pw, w))))
    = sent w ++ [Request ("http://" +:+ ip +:+ "/HNAP1/")
                         (challenge_request_body user)
                         (plain_headers "Login")].
Proof.
  intros rt ip user pw w. rewrite requestLoginChallenge_cases.
  rewrite makeHNAPRequest_unsigned by reflexivity. unfold posted. cbn.
  destruct (axios_post rt (sent w) _) as [response|e]; [|reflexivity].
  destruct (parseXmlResponse rt response) as [result|e]; [|reflexivity].
  destruct (get result "Challenge"); reflexivity.
Qed.

(** [performLogin] writes the private key and nothing else of the
    session. *)
Lemma performLogin_keeps (rt : runtime) (c : client) (w : world) :
  let c' := fst (snd (performLogin rt (c, w))) in
  password c' = password c /\ cookie c' = cookie c
  /\ publicKey c' = publicKey c /\ challenge c' = challenge c.
Proof.
  cbv zeta. rewrite performLogin_steps.
  destruct (hmac_upper rt _ (challenge c)) as [key|e]; [|cbn; auto].
  destruct (hmac_upper rt (JStr key) (challenge c)) as [loginPassword|e]; [|cbn; auto].
  pose proof (makeHNAPRequest_session rt "Login"
                (login_request_body (username c) loginPassword)
                (set_privateKey (JStr key) c) w) as Hs.
  destruct (makeHNAPRequest rt _ _ _) as [[response|e] s'];
    cbn in Hs |- *; destruct Hs as (_ & _ & H3 & _ & _ & H6 & H7 & H8); auto.
Qed.

Lemma performLogin_key (rt : runtime) (c : client) (w : world) (pk ch : string) :
  publicKey c = JStr pk ->
  challenge c = JStr ch ->
  privateKey (fst (snd (performLogin rt (c, w)))) = JStr (derived_key c pk ch).
Proof.
  intros Hpk Hch. rewrite (performLogin_on_strings rt c w pk ch Hpk Hch).
  pose proof (makeHNAPRequest_session rt "Login"
                (login_request_body (username c) (derived_password c pk ch))
                (set_privateKey (JStr (derived_key c pk ch)) c) w) as Hs.
  destruct (makeHNAPRequest rt _ _ _) as [[response|e] s'];
    cbn in Hs |- *; destruct Hs as (_ & _ & _ & _ & H5 & _); exact H5.
Qed.

(** X22: after a [login] that has returned with a challenge and a public
    key that are strings, the private key is the digest derived from
    them, and each of the five operations posts one request that carries
    HNAP_AUTH, signed with that key over its timestamp and the quoted
    action URI, and the cookie of the session. *)
Theorem operations_after_login :
  forall (rt : runtime) (radio : string) (op : M jsval) (action : string)
         (params : list (string * string)) (c c' : client) (w w' : world) (u : unit)
         (pk ch : string),
    login rt (c, w) = (Return u, (c', w')) ->
    publicKey c' = JStr pk ->
    challenge c' = JStr ch ->
    In (op, (action, params)) (operations rt radio) ->
    privateKey c' = JStr (derived_key c' pk ch)
    /\ exists (req : request) (timestamp : string),
        sent (snd (snd (op (c', w')))) = sent w' ++ [req]
        /\ fst (getUniqueTimestamp rt (c', w')) = Return timestamp
        /\ req_body req = createSOAP action params
        /\ req_headers req !! "HNAP_AUTH"
           = Some (Str.toUpperCase
                     (hex_hmac_md5 (derived_key c' pk ch) (timestamp +:+ soapAction_of action))
                   +:+ " " +:+ timestamp)
        /\ req_headers req !! "Cookie" = Some ("uid=" +:+ js_to_string (cookie c')).
Proof.
  intros rt radio op action params c c' w w' u pk ch Hlogin Hpk Hch Hin.
  rewrite login_sequence in Hlogin.
  destruct (requestLoginChallenge rt (c, w)) as [[u1|e] [c1 w1]] eqn:Hphase1; [|discriminate].
  destruct (requestLoginChallenge_returns rt (c, w) (c1, w1) u1 Hphase1) as (_ & Hck & _).
  pose proof (performLogin_keeps rt c1 w1) as Hkeeps.
  rewrite Hlogin in Hkeeps. cbn in Hkeeps, Hck.
  destruct Hkeeps as (Hpw & Hcookie & Hpk' & Hch').
  assert (privateKey c' = JStr (derived_key c' pk ch)) as Hkey.
  { pose proof (performLogin_key rt c1 w1 pk ch) as Hk. rewrite Hlogin in Hk. cbn in Hk.
    rewrite Hk by congruence. unfold derived_key. rewrite Hpw. reflexivity. }
  split; [exact Hkey|].
  rewrite (operation_steps rt radio op action params (c', w') Hin).
  rewrite makeHNAPRequest_cases, Hkey.
  unfold derived_key at 1. rewrite digest_truthy. fold (derived_key c' pk ch).
  cbn zeta. unfold hmac_upper. cbv iota beta.
  rewrite getUniqueTimestamp_next. unfold posted. cbn [fst snd sent].
  eexists. exists (Str.of_Z (next_stamp rt c' w')).
  split.
  { destruct (axios_post rt (sent w') _); reflexivity. }
  split; [reflexivity|]. split; [reflexivity|]. cbn [req_headers]. split.
  - rewrite lookup_add_cookie by discriminate. apply lookup_insert_eq.
  - rewrite lookup_add_cookie_Cookie.
    + rewrite Hcookie, Hck. reflexivity.
    + rewrite lookup_insert_ne by discriminate.
      destruct (plain_headers_lookup action) as (_ & _ & Hc). exact Hc.
Qed.

Lemma operations_after_login_witness :
  let s := snd (login accepting (new_client "192.168.0.1" "Admin" "", fresh_world)) in
  privateKey (fst s) = JStr (derived_key (fst s) "FEDCBA0987654321" "1234567890ABCDEF")
  /\ exists (req : request) (timestamp : string),
      sent (snd (snd (getDeviceSettings accepting (fst s, snd s)))) = sent (snd s) ++ [req]
      /\ fst (getUniqueTimestamp accepting (fst s, snd s)) = Return timestamp
      /\ req_body req = createSOAP "GetDeviceSettings" []
      /\ req_headers req !! "HNAP_AUTH"
         = Some (Str.toUpperCase
                   (hex_hmac_md5 (derived_key (fst s) "FEDCBA0987654321" "1234567890ABCDEF")
                      (timestamp +:+ soapAction_of "GetDeviceSettings"))
                 +:+ " " +:+ timestamp)
      /\ req_headers req !! "Cookie" = Some ("uid=" +:+ js_to_string (cookie (fst s))).
Proof.
  cbv zeta.
  apply (operations_after_login accepting "" (getDeviceSettings accepting)
           "GetDeviceSettings" [] (new_client "192.168.0.1" "Admin" "") _ fresh_world _ tt).
  - vm_compute. reflexivity.
  - vm_compute. reflexivity.
  - vm_compute. reflexivity.
  - cbn. auto.
Defined.


(** ** The verdict of [performLogin] *)

Lemma strict_eq_string_false (v : jsval) (s : string) :
  v <> JStr s -> strict_eq_string v s = false.
Proof.
  intros Hne. destruct (strict_eq_string v s) eqn:H; [|reflexivity].
  apply strict_eq_string_true in H. contradiction.
Qed.

(** X16: the return of [performLogin] is decided by what the transport
    answered to the login request it has posted.  If it returns, that
    request is the one added to the requests sent, the transport
    answered it, the answer parsed, and its LoginResult is the string
    success, letter for letter.  And if the transport's answer to the
    posted request parses to a result whose LoginResult is anything
    else, a missing one included, it throws the login failure. *)
Theorem performLogin_returns_on_success_only :
  forall (rt : runtime) (c : client) (w : world),
    let r := performLogin rt (c, w) in
    (forall u : unit,
        fst r = Return u ->
        exists (req : request) (loginPassword response : string) (result : jsval),
          sent (snd (snd r)) = sent w ++ [req]
          /\ req_body req = login_request_body (username c) loginPassword
          /\ axios_post rt (sent w) req = Return response
          /\ parseXmlResponse rt response = Return result
          /\ get result "LoginResult" = Return (JStr "success"))
    /\ (forall (req : request) (response : string) (result loginResult : jsval),
          sent (snd (snd r)) = sent w ++ [req] ->
          axios_post rt (sent w) req = Return response ->
          parseXmlResponse rt response = Return result ->
          get result "LoginResult" = Return loginResult ->
          loginResult <> JStr "success" ->
          fst r = Throw (Error "Login failed")).
Proof.
  intros rt c w r. subst r. rewrite performLogin_steps.
  assert (forall req : request, sent w <> sent w ++ [req]) as Hnone.
  { intros req H. rewrite <- (app_nil_r (sent w)) in H at 1.
    apply app_inv_head in H. discriminate. }
  destruct (hmac_upper rt _ (challenge c)) as [key|e].
  2: { split; [discriminate|]. intros req ? ? ? H. destruct (Hnone req H). }
  destruct (hmac_upper rt (JStr key) (challenge c)) as [loginPassword|e].
  2: { split; [discriminate|]. intros req ? ? ? H. destruct (Hnone req H). }
  destruct (makeHNAPRequest_usual_key rt "Login"
              (login_request_body (username c) loginPassword)
              (set_privateKey (JStr key) c) w)
    as (c' & w' & req0 & Hreq & Hsent & Hbody & _).
  { right. exists key. reflexivity. }
  rewrite Hreq. unfold login_verdict. split.
  - intros u. destruct (axios_post rt (sent w) req0) as [response|e] eqn:Hpost;
      [|discriminate].
    cbn. intros H. exists req0, loginPassword, response.
    destruct (parseXmlResponse rt response) as [result|e]; [|discriminate].
    exists result. cbn in H.
    destruct (get result "LoginResult") as [v|e]; [|discriminate]. cbn in H.
    destruct (strict_eq_string v "success") eqn:Hv; [|discriminate].
    apply strict_eq_string_true in Hv. subst v. auto.
  - intros req response result v Hs Hpost Hparse Hget Hne.
    assert (req0 = req) as ->.
    { destruct (axios_post rt (sent w) req0); cbn in Hs; rewrite Hsent in Hs;
        apply app_inv_head in Hs; congruence. }
    rewrite Hpost. cbn. rewrite Hparse. cbn. rewrite Hget. cbn.
    rewrite (strict_eq_string_false v "success" Hne). reflexivity.
Qed.

(** The accepting router lets the login through; the router of
    [no_cookie_router], whose LoginResult is OK, does not. *)
Lemma performLogin_returns_on_success_only_witness :
  (exists (req : request) (loginPassword response : string) (result : jsval),
      sent (snd (snd (performLogin accepting (challenged, fresh_world))))
      = sent fresh_world ++ [req]
      /\ req_body req = login_request_body (username challenged) loginPassword
      /\ axios_post accepting (sent fresh_world) req = Return response
      /\ parseXmlResponse accepting response = Return result
      /\ get result "LoginResult" = Return (JStr "success"))
  /\ fst (performLogin no_cookie_router (challenged, fresh_world))
     = Throw (Error "Login failed").
Proof.
  split.
  - apply (proj1 (performLogin_returns_on_success_only accepting challenged fresh_world) tt).
    vm_compute. reflexivity.
  - eapply (proj2 (performLogin_returns_on_success_only no_cookie_router challenged
                     fresh_world)).
    + vm_compute. reflexivity.
    + vm_compute. reflexivity.
    + vm_compute. reflexivity.
    + vm_compute. reflexivity.
    + discriminate.
Defined.
